(** * The AI review agent (scripts/ai-reviewer/review-agent.py)

  A shallow embedding of the script and of the Python built-ins it calls,
  followed by the properties of its two stages: the Review Generator
  ([get_line_specific_review]) and the Comment Applier
  ([apply_line_comments]).

  Conventions.
  - A Python [str] is a sequence of Unicode code points: [list N].
  - Python's unbounded [int] is [Z]; a Python [float] is a binary64 value,
    [spec_float] with precision 53 and maximal exponent 1024.
  - Every call that leaves the script (the GitHub client, the Gemini client,
    the file system, [json.loads], [print]) is answered by an oracle that
    sees the calls made so far, and is appended to a trace with its outcome.
  - [exn] stands for the subclasses of Python's [Exception], the ones an
    [except Exception] clause catches. *)

From Stdlib Require Import ZArith NArith Lia Ascii String.
From Stdlib Require Import Floats.SpecFloat.
From stdpp Require Import base tactics option list.

Local Open Scope N_scope.

(** ** Python strings *)

Module PyStr.

Abbreviation str := (list N).

(** A string literal of the source; the literals of the script are ASCII. *)
Definition lit (s : string) : str :=
  map N_of_ascii (list_ascii_of_string s).

(** [s.startswith(p)] *)
Fixpoint startswith (p s : str) : bool :=
  match p, s with
  | [], _ => true
  | _ :: _, [] => false
  | a :: p', b :: s' => (a =? b) && startswith p' s'
  end.

(** [p in s] on strings: [p] occurs in [s] as a contiguous substring. *)
Fixpoint contains (p s : str) : bool :=
  startswith p s ||
  match s with
  | [] => false
  | _ :: s' => contains p s'
  end.

(** [s.split(sep)] for a non-empty [sep]: the pieces between the
    non-overlapping occurrences of [sep], found from left to right.
    [skip] counts the characters of a matched separator still to be
    dropped.  (Python raises ValueError on an empty separator.) *)
Fixpoint split_from (sep : str) (skip : nat) (s : str) : list str :=
  match s with
  | [] => [[]]
  | c :: s' =>
      match skip with
      | S k => split_from sep k s'
      | O =>
          if startswith sep s
          then [] :: split_from sep (pred (length sep)) s'
          else match split_from sep O s' with
               | piece :: pieces => (c :: piece) :: pieces
               | [] => [[c]]
               end
      end
  end.

Definition split (sep s : str) : list str := split_from sep O s.

(** [c.isspace()] for a single code point: the characters [str.strip()]
    removes. *)
Definition isspace (c : N) : bool :=
  ((9 <=? c) && (c <=? 13)) || ((28 <=? c) && (c <=? 32))
  || (c =? 133) || (c =? 160) || (c =? 5760)
  || ((8192 <=? c) && (c <=? 8202))
  || (c =? 8232) || (c =? 8233) || (c =? 8239) || (c =? 8287)
  || (c =? 12288).

Fixpoint lstrip (s : str) : str :=
  match s with
  | [] => []
  | c :: s' => if isspace c then lstrip s' else s
  end.

Definition rstrip (s : str) : str := reverse (lstrip (reverse s)).

(** [s.strip()] *)
Definition strip (s : str) : str := rstrip (lstrip s).

(** [a] is the text before the first occurrence of [sep] in [s]. *)
Definition before_first (sep a s : str) : Prop :=
  (exists b, s = a ++ sep ++ b) /\
  forall a' b', s = a' ++ sep ++ b' -> (length a <= length a')%nat.

(** [sep] occurs somewhere in [s]. *)
Definition occurs (sep s : str) : Prop :=
  exists a b, s = a ++ sep ++ b.

(** [m] is [s] without the white space at its two ends. *)
Definition stripped (s m : str) : Prop :=
  exists l r,
    s = l ++ m ++ r /\
    Forall (fun c => isspace c = true) l /\
    Forall (fun c => isspace c = true) r /\
    (forall c, head m = Some c -> isspace c = false) /\
    (forall c, last m = Some c -> isspace c = false).

End PyStr.

(** ** Python values and the built-ins the script applies to them *)

Module PyObj.
Import PyStr.

(** Exceptions: subclasses of [Exception].  [JSONDecodeError] is the one
    [json.loads] raises on malformed text; [OtherError] stands for whatever
    else a library call raises (GithubException, OSError, ...). *)
Inductive exn : Type :=
| IndexError
| KeyError (key : str)
| TypeError
| ValueError
| OverflowError
| JSONDecodeError
| RecursionError
| OtherError (tag : N).

(** The outcome of evaluating an expression: a value, or a raised
    exception. *)
Inductive result (A : Type) : Type :=
| Ok (a : A)
| Raise (e : exn).
Arguments Ok {A} a.
Arguments Raise {A} e.

Definition rbind {A B} (r : result A) (k : A -> result B) : result B :=
  match r with
  | Ok a => k a
  | Raise e => Raise e
  end.

(** The objects [json.loads] builds.  A dict keeps its items in insertion
    order; its keys are strings, as JSON object keys always are. *)
#[warnings="-register-all"]
Inductive pyobj : Type :=
| PNone
| PBool (b : bool)
| PInt (n : Z)
| PFloat (f : spec_float)
| PStr (s : str)
| PList (items : list pyobj)
| PDict (items : list (str * pyobj)).

Definition str_eqb (a b : str) : bool := bool_decide (a = b).

(** [xs[i]] on a list, for [i >= 0]: IndexError out of range. *)
Definition index {A} (xs : list A) (i : nat) : result A :=
  match xs !! i with
  | Some x => Ok x
  | None => Raise IndexError
  end.

(** Lookup in a dict's items. *)
Fixpoint dict_get (items : list (str * pyobj)) (k : str) : option pyobj :=
  match items with
  | [] => None
  | (k', v) :: rest => if str_eqb k' k then Some v else dict_get rest k
  end.

(** [d[k] = v]: an existing key keeps its position and takes the new value,
    a new key goes last. *)
Fixpoint dict_set (items : list (str * pyobj)) (k : str) (v : pyobj)
  : list (str * pyobj) :=
  match items with
  | [] => [(k, v)]
  | (k', v') :: rest =>
      if str_eqb k' k then (k', v) :: rest else (k', v') :: dict_set rest k v
  end.

(** [o[k]] for a string key [k]: only a dict can be subscripted by a
    string; a list or a string wants an integer index, the other objects are
    not subscriptable. *)
Definition getitem (o : pyobj) (k : str) : result pyobj :=
  match o with
  | PDict items =>
      match dict_get items k with
      | Some v => Ok v
      | None => Raise (KeyError k)
      end
  | _ => Raise TypeError
  end.

(** The items [for c in o] visits: the elements of a list, the keys of a
    dict, the characters of a string; the other objects are not iterable. *)
Definition iter (o : pyobj) : result (list pyobj) :=
  match o with
  | PList items => Ok items
  | PDict items => Ok (map (fun kv => PStr (fst kv)) items)
  | PStr s => Ok (map (fun c => PStr [c]) s)
  | _ => Raise TypeError
  end.

(** First code points of the blocks of ten decimal digits (general category
    Nd) of Unicode 14.0, the table of CPython 3.11. *)
Definition decimal_blocks : list N :=
  [48; 1632; 1776; 1984; 2406; 2534; 2662; 2790; 2918; 3046; 3174; 3302;
   3430; 3558; 3664; 3792; 3872; 4160; 4240; 6112; 6160; 6470; 6608; 6784;
   6800; 6992; 7088; 7232; 7248; 42528; 43216; 43264; 43472; 43504; 43600;
   44016; 65296; 66720; 68912; 69734; 69872; 69942; 70096; 70384; 70736;
   70864; 71248; 71360; 71472; 71904; 72016; 72784; 73040; 73120; 92768;
   92864; 93008; 120782; 120792; 120802; 120812; 120822; 123200; 123632;
   125264; 130032].

(** The decimal value of a digit character, if it is one. *)
Definition decimal (c : N) : option N :=
  match List.find (fun b => (b <=? c) && (c <? b + 10)) decimal_blocks with
  | Some b => Some (c - b)
  | None => None
  end.

(** C's [isspace] in the C locale. *)
Definition ascii_isspace (c : N) : bool :=
  ((9 <=? c) && (c <=? 13)) || (c =? 32).

(** What [int(s)] does to a string first: ASCII stays, other white space
    becomes a blank, other decimal digits their ASCII digit; anything else
    makes the literal invalid. *)
Definition to_ascii_decimal (c : N) : option N :=
  if c <? 127 then Some c
  else if isspace c then Some 32
  else match decimal c with
       | Some d => Some (48 + d)
       | None => None
       end.

Fixpoint transform (s : str) : option str :=
  match s with
  | [] => Some []
  | c :: s' =>
      match to_ascii_decimal c, transform s' with
      | Some c', Some t => Some (c' :: t)
      | _, _ => None
      end
  end.

Definition is_digit (c : N) : bool := (48 <=? c) && (c <=? 57).

(** The digits of a base-10 literal, single underscores allowed between
    them: the value, the number of digits and the rest of the text.  [prev]
    tells whether the previous character was an underscore. *)
Fixpoint scan_digits (s : str) (acc : Z) (count : nat) (prev : bool)
  : option (Z * nat * str) :=
  match s with
  | c :: s' =>
      if is_digit c
      then scan_digits s' (10 * acc + Z.of_N (c - 48)) (S count) false
      else if c =? 95
      then if prev then None else scan_digits s' acc count true
      else if prev then None else Some (acc, count, s)
  | [] => if prev then None else Some (acc, count, s)
  end.

Fixpoint skip_ascii_space (s : str) : str :=
  match s with
  | c :: s' => if ascii_isspace c then skip_ascii_space s' else s
  | [] => []
  end.

(** Whether a literal of [count] digits passes the interpreter's limit on
    the conversion of strings to integers ([sys.set_int_max_str_digits]):
    [0] means no limit (also CPython before 3.11), and literals of up to 640
    digits always pass. *)
Definition within_digit_limit (max_str_digits count : nat) : bool :=
  negb ((640 <? count)%nat && (0 <? max_str_digits)%nat
        && (max_str_digits <? count)%nat).

(** [int(s)] for a string, base 10. *)
Definition int_of_str (max_str_digits : nat) (s : str) : result Z :=
  match transform s with
  | None => Raise ValueError
  | Some t =>
      let t1 := skip_ascii_space t in
      let '(neg, t2) :=
        match t1 with
        | 43 :: r => (false, r)
        | 45 :: r => (true, r)
        | _ => (false, t1)
        end in
      match t2 with
      | 95 :: _ => Raise ValueError
      | _ =>
          match scan_digits t2 0%Z O false with
          | Some (v, count, rest) =>
              if (count =? 0)%nat then Raise ValueError
              else if negb (within_digit_limit max_str_digits count)
              then Raise ValueError
              else match skip_ascii_space rest with
                   | [] => Ok (if neg then (- v)%Z else v)
                   | _ :: _ => Raise ValueError
                   end
          | None => Raise ValueError
          end
      end
  end.

(** [int(f)] for a float: truncation towards zero. *)
Definition int_of_float (f : spec_float) : result Z :=
  match f with
  | S754_zero _ => Ok 0%Z
  | S754_infinity _ => Raise OverflowError
  | S754_nan => Raise ValueError
  | S754_finite s m e =>
      let a := (if (0 <=? e)%Z then Z.shiftl (Zpos m) e
                else Z.shiftr (Zpos m) (- e))%Z in
      Ok (if s then (- a)%Z else a)
  end.

(** [int(o)] *)
Definition int (max_str_digits : nat) (o : pyobj) : result Z :=
  match o with
  | PInt n => Ok n
  | PBool b => Ok (if b then 1 else 0)%Z
  | PFloat f => int_of_float f
  | PStr s => int_of_str max_str_digits s
  | PNone | PList _ | PDict _ => Raise TypeError
  end.

(** [str(o)] as an f-string renders a value that is a string or None. *)
Definition format_opt (o : option str) : str :=
  match o with
  | Some s => s
  | None => lit "None"
  end.

End PyObj.

(** ** The JSON decoder

    [json.loads] as CPython's [json.decoder] and [json.scanner] implement it
    with their default settings (strict strings, [NaN] and [Infinity]
    accepted).  It is library code: the script's functions are stated over an
    arbitrary decoder, and this one answers for the library in the worked
    examples.

    The interpreter's recursion limit is not part of the model: CPython
    raises RecursionError on a text nested deeper than the limit allows
    (about a thousand levels by default), while this decoder accepts any
    depth.  The worked examples nest two levels. *)

Module Json.
Import PyStr PyObj.

(** White space between tokens: blank, tab, line feed, carriage return. *)
Definition is_ws (c : N) : bool :=
  (c =? 32) || (c =? 9) || (c =? 10) || (c =? 13).

Fixpoint skip_ws (s : str) : str :=
  match s with
  | c :: s' => if is_ws c then skip_ws s' else s
  | [] => []
  end.

Definition hex_digit (c : N) : option N :=
  if is_digit c then Some (c - 48)
  else if (97 <=? c) && (c <=? 102) then Some (c - 87)
  else if (65 <=? c) && (c <=? 70) then Some (c - 55)
  else None.

Definition hex4 (a b c d : N) : option N :=
  match hex_digit a, hex_digit b, hex_digit c, hex_digit d with
  | Some x, Some y, Some z, Some w => Some (((x * 16 + y) * 16 + z) * 16 + w)
  | _, _, _, _ => None
  end.

Definition is_high_surrogate (u : N) : bool := (55296 <=? u) && (u <=? 56319).
Definition is_low_surrogate (u : N) : bool := (56320 <=? u) && (u <=? 57343).
Definition join_surrogates (hi lo : N) : N :=
  65536 + (hi - 55296) * 1024 + (lo - 56320).

(** The character a one-letter escape stands for. *)
Definition escape (c : N) : option N :=
  if c =? 34 then Some 34 else if c =? 92 then Some 92
  else if c =? 47 then Some 47 else if c =? 98 then Some 8
  else if c =? 102 then Some 12 else if c =? 110 then Some 10
  else if c =? 114 then Some 13 else if c =? 116 then Some 9
  else None.

Definition push (c : N) (r : result (str * str)) : result (str * str) :=
  rbind r (fun p => Ok (c :: fst p, snd p)).

(** The low half of a surrogate pair written as a second escape. *)
Definition low_escape (s : str) : option N :=
  match s with
  | 92 :: 117 :: a :: b :: c :: d :: _ =>
      match hex4 a b c d with
      | Some u => if is_low_surrogate u then Some u else None
      | None => None
      end
  | _ => None
  end.

(** [scanstring]: the text of a string literal after its opening quote, and
    what follows the closing quote. *)
Fixpoint scanstring (s : str) : result (str * str) :=
  match s with
  | [] => Raise JSONDecodeError
  | 34 :: rest => Ok ([], rest)
  | 92 :: 117 :: a :: b :: c :: d :: rest =>
      match hex4 a b c d with
      | None => Raise JSONDecodeError
      | Some u =>
          match (if is_high_surrogate u then low_escape rest else None), rest with
          | Some lo, _ :: _ :: _ :: _ :: _ :: _ :: rest' =>
              push (join_surrogates u lo) (scanstring rest')
          | _, _ => push u (scanstring rest)
          end
      end
  | 92 :: e :: rest =>
      match escape e with
      | Some c => push c (scanstring rest)
      | None => Raise JSONDecodeError
      end
  | 92 :: [] => Raise JSONDecodeError
  | c :: rest =>
      if c <=? 31 then Raise JSONDecodeError else push c (scanstring rest)
  end.

(** The longest run of ASCII digits at the head of [s], and the rest. *)
Fixpoint span_digits (s : str) : str * str :=
  match s with
  | c :: s' =>
      if is_digit c then let '(d, r) := span_digits s' in (c :: d, r)
      else ([], s)
  | [] => ([], [])
  end.

(** The value of a run of ASCII digits. *)
Definition digits_value (d : str) : Z :=
  fold_left (fun acc c => (10 * acc + Z.of_N (c - 48))%Z) d 0%Z.

(** A number literal, in the three groups the scanner splits it into: an
    optional minus sign and the integer part (a lone zero, or digits that do
    not start with zero), an optional fraction (a dot and digits), an optional
    exponent (e or E, an optional sign, digits). *)
Record number := {
  num_neg : bool;
  num_int : str;
  num_frac : option str;
  num_exp : option (bool * str)
}.

Definition match_int (s : str) : option (str * str) :=
  match s with
  | 48 :: r => Some ([48], r)
  | c :: _ => if is_digit c then Some (span_digits s) else None
  | [] => None
  end.

Definition match_frac (s : str) : option str * str :=
  match s with
  | 46 :: c :: _ =>
      if is_digit c then let '(d, r) := span_digits (tl s) in (Some d, r)
      else (None, s)
  | _ => (None, s)
  end.

Definition match_exp (s : str) : option (bool * str) * str :=
  match s with
  | c :: r =>
      if (c =? 101) || (c =? 69) then
        let '(neg, r1) :=
          match r with
          | 45 :: r' => (true, r')
          | 43 :: r' => (false, r')
          | _ => (false, r)
          end in
        match span_digits r1 with
        | ([], _) => (None, s)
        | (d, r2) => (Some (neg, d), r2)
        end
      else (None, s)
  | [] => (None, s)
  end.

Definition match_number (s : str) : option (number * str) :=
  let '(neg, s1) :=
    match s with
    | 45 :: r => (true, r)
    | _ => (false, s)
    end in
  match match_int s1 with
  | None => None
  | Some (i, r1) =>
      let '(f, r2) := match_frac r1 in
      let '(e, r3) := match_exp r2 in
      Some ({| num_neg := neg; num_int := i; num_frac := f; num_exp := e |},
            r3)
  end.

(** [float(text)] for a decimal literal [digits * 10^e10]: the nearest
    binary64 value, ties to even. *)
Definition float_of_decimal (neg : bool) (digits e10 : Z) : spec_float :=
  match digits with
  | Zpos d =>
      if (0 <=? e10)%Z
      then match (digits * 10 ^ e10)%Z with
           | Zpos m => binary_round 53 1024 neg m 0
           | _ => S754_zero neg
           end
      else
        let den := (10 ^ (- e10))%Z in
        let sh := Z.max 0 (Zdigits2 den + 55 - Zdigits2 digits)%Z in
        let num := Z.shiftl digits sh in
        let q := (num / den)%Z in
        let r := (num mod den)%Z in
        let loc := if (r =? 0)%Z then loc_Exact
                   else loc_Inexact (2 * r ?= den)%Z in
        binary_round_aux 53 1024 neg q (- sh) loc
  | _ => S754_zero neg
  end.

(** The object a number literal denotes: an int when it has neither
    fraction nor exponent, a float otherwise. *)
Definition number_value (max_str_digits : nat) (n : number) : result pyobj :=
  match num_frac n, num_exp n with
  | None, None =>
      if within_digit_limit max_str_digits (length (num_int n))
      then let v := digits_value (num_int n) in
           Ok (PInt (if num_neg n then (- v)%Z else v))
      else Raise ValueError
  | f, e =>
      let fd := default [] f in
      let ev := match e with
                | Some (eneg, d) =>
                    if eneg then (- digits_value d)%Z else digits_value d
                | None => 0%Z
                end in
      Ok (PFloat (float_of_decimal (num_neg n)
                    (digits_value (num_int n ++ fd))
                    (ev - Z.of_nat (length fd))))
  end.

(** [dict(pairs)] *)
Definition dict_of_pairs (pairs : list (str * pyobj)) : list (str * pyobj) :=
  fold_left (fun d kv => dict_set d (fst kv) (snd kv)) pairs [].

(** The values that are neither strings, objects nor arrays: the three
    names, numbers, and the names of the floats that are not numbers. *)
Definition scan_scalar (max_str_digits : nat) (s : str)
  : result (pyobj * str) :=
  if startswith (lit "null") s then Ok (PNone, drop 4 s)
  else if startswith (lit "true") s then Ok (PBool true, drop 4 s)
  else if startswith (lit "false") s then Ok (PBool false, drop 5 s)
  else match match_number s with
       | Some (n, rest) =>
           rbind (number_value max_str_digits n) (fun v => Ok (v, rest))
       | None =>
           if startswith (lit "NaN") s
           then Ok (PFloat S754_nan, drop 3 s)
           else if startswith (lit "Infinity") s
           then Ok (PFloat (S754_infinity false), drop 8 s)
           else if startswith (lit "-Infinity") s
           then Ok (PFloat (S754_infinity true), drop 9 s)
           else Raise JSONDecodeError
       end.

(** [scan_once] with the array and object parsers it calls.  [fuel] bounds
    the number of nested calls and makes the recursion structural; a call
    without fuel raises RecursionError.  [loads] gives enough of it for the
    text it decodes ([loads_has_fuel] below). *)
Fixpoint scan_once (max_str_digits fuel : nat) (s : str)
  : result (pyobj * str) :=
  match fuel with
  | O => Raise RecursionError
  | S fuel' =>
      match s with
      | [] => Raise JSONDecodeError
      | 34 :: r => rbind (scanstring r) (fun p => Ok (PStr (fst p), snd p))
      | 123 :: r =>
          match skip_ws r with
          | 125 :: rest => Ok (PDict [], rest)
          | 34 :: r1 =>
              rbind (parse_members max_str_digits fuel' r1 [])
                    (fun p => Ok (PDict (dict_of_pairs (fst p)), snd p))
          | _ => Raise JSONDecodeError
          end
      | 91 :: r =>
          match skip_ws r with
          | 93 :: rest => Ok (PList [], rest)
          | r1 =>
              rbind (parse_elements max_str_digits fuel' r1 [])
                    (fun p => Ok (PList (fst p), snd p))
          end
      | _ => scan_scalar max_str_digits s
      end
  end

(** The elements of an array from the first one on; [acc] holds the
    elements read so far, last first. *)
with parse_elements (max_str_digits fuel : nat) (s : str) (acc : list pyobj)
  : result (list pyobj * str) :=
  match fuel with
  | O => Raise RecursionError
  | S fuel' =>
      rbind (scan_once max_str_digits fuel' s) (fun p =>
        match skip_ws (snd p) with
        | 93 :: rest => Ok (reverse (fst p :: acc), rest)
        | 44 :: rest =>
            parse_elements max_str_digits fuel' (skip_ws rest) (fst p :: acc)
        | _ => Raise JSONDecodeError
        end)
  end

(** The members of an object after the opening quote of a key. *)
with parse_members (max_str_digits fuel : nat) (s : str)
       (acc : list (str * pyobj)) : result (list (str * pyobj) * str) :=
  match fuel with
  | O => Raise RecursionError
  | S fuel' =>
      rbind (scanstring s) (fun k =>
        match skip_ws (snd k) with
        | 58 :: r =>
            rbind (scan_once max_str_digits fuel' (skip_ws r)) (fun p =>
              let acc' := (fst k, fst p) :: acc in
              match skip_ws (snd p) with
              | 125 :: rest => Ok (reverse acc', rest)
              | 44 :: r1 =>
                  match skip_ws r1 with
                  | 34 :: r2 => parse_members max_str_digits fuel' r2 acc'
                  | _ => Raise JSONDecodeError
                  end
              | _ => Raise JSONDecodeError
              end)
        | _ => Raise JSONDecodeError
        end)
  end.

(** [json.loads(s)] for a [str]: no byte order mark, one value, nothing but
    white space around it. *)
Definition loads (max_str_digits : nat) (s : str) : result pyobj :=
  match s with
  | 65279 :: _ => Raise JSONDecodeError
  | _ =>
      rbind (scan_once max_str_digits (2 * length s + 2) (skip_ws s))
            (fun p =>
               match skip_ws (snd p) with
               | [] => Ok (fst p)
               | _ :: _ => Raise JSONDecodeError
               end)
  end.

(** A parser's result is sound for a text of length [n]: it did not run out
    of fuel, and what it leaves is shorter than the text. *)
Definition sound {A} (n : nat) (r : result (A * str)) : Prop :=
  r <> Raise RecursionError /\
  forall v rest, r = Ok (v, rest) -> (length rest < n)%nat.

End Json.

(** ** The script *)

Module ReviewAgent.
Import PyStr PyObj.

(** What the script reads of the objects the GitHub client hands out. *)
Record Commit : Type := { commit_sha : str }.

(** An entry of [comparison.files]; the client gives None for the patch of a
    file that has none (a binary file). *)
Record File : Type := { filename : str; patch : option str }.

(** [pr.base.sha] and [pr.head.sha]. *)
Record PullRequest : Type := { base_sha : str; head_sha : str }.

(** The calls that leave the script.
    - [read_file p] is [open(p, "r")] followed by [f.read()];
    - [get_commits] is [pr.get_commits()], read in full, oldest first;
    - [compare b h] is [repo.compare(b, h).files];
    - [generate_content m p] is
      [genai.GenerativeModel(m).generate_content(p).text];
    - [print_error e] is [print(f"Error parsing AI response: {e}")];
    - [create_review_comment], [add_to_assignees] and [create_issue_comment]
      are the methods of [pr] of these names. *)
Inductive call : Type :=
| genai_configure (api_key : option str)
| Github (token : option str)
| get_repo (full_name : str)
| get_pull (number : Z)
| read_file (path : str)
| get_commits
| compare (base head : str)
| generate_content (model prompt : str)
| json_loads (s : str)
| create_review_comment (body : pyobj) (commit : Commit) (path : pyobj)
    (line : Z)
| add_to_assignees (assignee : option str)
| create_issue_comment (body : str)
| print_error (e : exn).

(** What a call returns to the script. *)
Definition resp (c : call) : Type :=
  match c with
  | get_pull _ => PullRequest
  | read_file _ => str
  | get_commits => list Commit
  | compare _ _ => list File
  | generate_content _ _ => str
  | json_loads _ => pyobj
  | _ => unit
  end.

(** A call that was made, and the exception it raised if it did. *)
Record event : Type := Event { ev_call : call; ev_raised : option exn }.

Definition trace : Type := list event.

(** The world outside the script: how a call is answered after the given
    calls. *)
Definition World : Type := trace -> forall c : call, result (resp c).

(** What the process is started with. *)
Record Process : Type := {
  sys_argv : list str;
  os_getenv : str -> option str;
  int_max_str_digits : nat
}.

(** Computations of the script: they extend the trace and return or raise. *)
Definition M (A : Type) : Type := trace -> trace * result A.

Definition ret {A} (a : A) : M A := fun t => (t, Ok a).

Definition bind {A B} (m : M A) (k : A -> M B) : M B :=
  fun t =>
    match m t with
    | (t', Ok a) => k a t'
    | (t', Raise e) => (t', Raise e)
    end.

(** An expression evaluated inside the script. *)
Definition lift {A} (r : result A) : M A := fun t => (t, r).

(** [try: body except Exception as e: handler(e)] *)
Definition try_except {A} (body : M A) (handler : exn -> M A) : M A :=
  fun t =>
    match body t with
    | (t', Ok a) => (t', Ok a)
    | (t', Raise e) => handler e t'
    end.

Definition outcome {A} (r : result A) : option exn :=
  match r with
  | Ok _ => None
  | Raise e => Some e
  end.

Declare Scope py_scope.
Delimit Scope py_scope with py.
Notation "x <- m ;; k" := (bind m (fun x => k))
  (at level 100, m at next level, right associativity) : py_scope.
Notation "m ;;; k" := (bind m (fun _ => k))
  (at level 100, right associativity) : py_scope.
Local Open Scope py_scope.

(** [for x in xs: f(x)] *)
Fixpoint for_each {A} (f : A -> M unit) (xs : list A) : M unit :=
  match xs with
  | [] => ret tt
  | x :: xs' => f x ;;; for_each f xs'
  end.

Definition nl : str := [10].
Definition dq : str := [34].

(** The text of the prompt around the standards and around the diff. *)
Definition prompt_head : str :=
  nl ++ lit "    Review this PR for the Flutter IntelliJ plugin based on these standards:"
  ++ nl ++ lit "    ".

Definition prompt_middle : str :=
  nl ++ nl ++ lit "    PR DIFF:" ++ nl ++ lit "    ".

Definition prompt_tail : str :=
  nl ++ nl ++ lit "    INSTRUCTIONS:"
  ++ nl ++ lit "    Return your review as a JSON list of objects. Each object MUST have:"
  ++ nl ++ lit "    " ++ dq ++ lit "path" ++ dq ++ lit ": (the file path),"
  ++ nl ++ lit "    " ++ dq ++ lit "line" ++ dq
  ++ lit ": (the line number in the new code),"
  ++ nl ++ lit "    " ++ dq ++ lit "comment" ++ dq ++ lit ": (your feedback)."
  ++ nl ++ nl ++ lit "    If no issues are found, return an empty list []."
  ++ nl ++ lit "    Finally, append the string " ++ dq
  ++ lit "ACTION: READY_FOR_HUMAN_REVIEW" ++ dq
  ++ lit " at the very end outside the JSON."
  ++ nl ++ lit "    ".

Definition make_prompt (standards diff_content : str) : str :=
  prompt_head ++ standards ++ prompt_middle ++ diff_content ++ prompt_tail.

(** One round of the loop that builds [diff_content]. *)
Definition add_file (diff_content : str) (file : File) : str :=
  diff_content ++ lit "File: " ++ filename file ++ nl
  ++ format_opt (patch file) ++ nl ++ nl.

Definition standards_path : str := lit "docs/ai-standards.md".
Definition model_name : str := lit "gemini-1.5-pro".
Definition repo_name : str := lit "flutter/flutter-intellij".
Definition ACTION : str := lit "ACTION:".
Definition READY_FOR_HUMAN_REVIEW : str := lit "READY_FOR_HUMAN_REVIEW".

Section Script.
Context (W : World) (P : Process).

(** A call: the world answers, the trace records it. *)
Definition perform (c : call) : M (resp c) :=
  fun t => let r := W t c in (t ++ [Event c (outcome r)], r).

(** The module-level names (lines 8 to 11). *)
Definition GITHUB_TOKEN : option str := os_getenv P (lit "GITHUB_TOKEN").
Definition GEMINI_API_KEY : option str := os_getenv P (lit "GEMINI_API_KEY").
Definition HUMAN_REVIEWER : option str := os_getenv P (lit "HUMAN_REVIEWER").
Definition PR_NUMBER : result Z :=
  rbind (index (sys_argv P) 1) (int_of_str (int_max_str_digits P)).

(** The module-level statements up to [pr = repo.get_pull(PR_NUMBER)]. *)
Definition setup : M PullRequest :=
  number <- lift PR_NUMBER ;;
  perform (genai_configure GEMINI_API_KEY) ;;;
  perform (Github GITHUB_TOKEN) ;;;
  perform (get_repo repo_name) ;;;
  perform (get_pull number).

Definition get_line_specific_review (pr : PullRequest) : M (str * Commit) :=
  standards <- perform (read_file standards_path) ;;
  commits <- perform get_commits ;;
  latest_commit <- lift (index (reverse commits) 0) ;;
  files <- perform (compare (base_sha pr) (head_sha pr)) ;;
  let diff_content := fold_left add_file files [] in
  let prompt := make_prompt standards diff_content in
  text <- perform (generate_content model_name prompt) ;;
  ret (text : str, latest_commit).

(** The body of the loop of [apply_line_comments]: the arguments are
    evaluated in the order they are written, then the call is made. *)
Definition post_comment (commit : Commit) (c : pyobj) : M unit :=
  body <- lift (getitem c (lit "comment")) ;;
  path <- lift (getitem c (lit "path")) ;;
  line_value <- lift (getitem c (lit "line")) ;;
  line <- lift (int (int_max_str_digits P) line_value) ;;
  perform (create_review_comment body commit path line).

(** [raw_response.split("ACTION:")[0].strip()] *)
Definition json_str (raw_response : str) : result str :=
  rbind (index (split ACTION raw_response) 0) (fun piece => Ok (strip piece)).

Definition handoff_text : str :=
  lit "AI Review complete. Reassigning to @" ++ format_opt HUMAN_REVIEWER
  ++ lit " for final sign-off.".

Definition fallback_text (raw_response : str) : str :=
  lit "AI Review Error: " ++ raw_response.

(** The [except] clause of [apply_line_comments]. *)
Definition fallback (raw_response : str) (e : exn) : M unit :=
  perform (print_error e) ;;;
  perform (create_issue_comment (fallback_text raw_response)).

(** The statements under [if "READY_FOR_HUMAN_REVIEW" in raw_response]. *)
Definition handoff : M unit :=
  perform (add_to_assignees HUMAN_REVIEWER) ;;;
  perform (create_issue_comment handoff_text).

Definition apply_line_comments (raw_response : str) (commit : Commit)
  : M unit :=
  try_except
    (payload <- lift (json_str raw_response) ;;
     comments <- perform (json_loads payload) ;;
     items <- lift (iter comments) ;;
     for_each (post_comment commit) items ;;;
     if contains READY_FOR_HUMAN_REVIEW raw_response
     then handoff
     else ret tt)
    (fallback raw_response).

(** The script run as a program: the module-level statements, then the two
    stages. *)
Definition main : M unit :=
  pr <- setup ;;
  review <- get_line_specific_review pr ;;
  apply_line_comments (fst review) (snd review).

End Script.

(** *** Reading a trace *)

Definition is_review_comment (ev : event) : bool :=
  match ev_call ev with
  | create_review_comment _ _ _ _ => true
  | _ => false
  end.

Definition is_issue_comment (ev : event) : bool :=
  match ev_call ev with
  | create_issue_comment _ => true
  | _ => false
  end.

Definition is_assignment (ev : event) : bool :=
  match ev_call ev with
  | add_to_assignees _ => true
  | _ => false
  end.

Definition is_generate (ev : event) : bool :=
  match ev_call ev with
  | generate_content _ _ => true
  | _ => false
  end.

Definition raised (ev : event) : bool :=
  match ev_raised ev with
  | Some _ => true
  | None => false
  end.

Definition is_json_loads (ev : event) : bool :=
  match ev_call ev with
  | json_loads _ => true
  | _ => false
  end.

(** A call that returned. *)
Definition done (c : call) : event := Event c None.

(** The piece of text [split] puts first. *)
Definition first_piece (sep s : str) : str := default [] (head (split sep s)).

(** The candidate JSON payload of a raw response. *)
Definition payload (raw_response : str) : str :=
  strip (first_piece ACTION raw_response).

(** What the loop of [get_line_specific_review] adds for one file. *)
Definition render_file (file : File) : str :=
  lit "File: " ++ filename file ++ nl ++ format_opt (patch file) ++ nl ++ nl.

(** The arguments [post_comment] evaluates for an entry. *)
Definition entry_args (max_str_digits : nat) (c : pyobj)
  : result (pyobj * pyobj * Z) :=
  rbind (getitem c (lit "comment")) (fun body =>
  rbind (getitem c (lit "path")) (fun path =>
  rbind (getitem c (lit "line")) (fun line_value =>
  rbind (int max_str_digits line_value) (fun line =>
  Ok (body, path, line))))).

(** A well-formed entry: an object with the keys "comment", "path" and
    "line", the last with a value [int] converts; [a] holds what the line
    comment is made of. *)
Definition well_formed (max_str_digits : nat) (c : pyobj)
  (a : pyobj * pyobj * Z) : Prop :=
  exists items line_value,
    c = PDict items /\
    dict_get items (lit "comment") = Some (a.1.1) /\
    dict_get items (lit "path") = Some (a.1.2) /\
    dict_get items (lit "line") = Some line_value /\
    int max_str_digits line_value = Ok (a.2).

(** The line comment a well-formed entry asks for. *)
Definition entry_call (commit : Commit) (a : pyobj * pyobj * Z) : call :=
  create_review_comment (a.1.1) commit (a.1.2) (a.2).

(** A world that answers every call of the GitHub client, of the model and
    of the file system with the given data and never raises; [json.loads] is
    the decoder of [Json]. *)
Definition calm_world (max_str_digits : nat) (pr : PullRequest)
  (standards : str) (commits : list Commit) (files : list File)
  (text : str) : World :=
  fun _ c =>
    match c return result (resp c) with
    | genai_configure _ => Ok tt
    | Github _ => Ok tt
    | get_repo _ => Ok tt
    | get_pull _ => Ok pr
    | read_file _ => Ok standards
    | get_commits => Ok commits
    | compare _ _ => Ok files
    | generate_content _ _ => Ok text
    | json_loads s => Json.loads max_str_digits s
    | create_review_comment _ _ _ _ => Ok tt
    | add_to_assignees _ => Ok tt
    | create_issue_comment _ => Ok tt
    | print_error _ => Ok tt
    end.

Definition is_print (ev : event) : bool :=
  match ev_call ev with
  | print_error _ => true
  | _ => false
  end.

(** Every call of the kind [kind] in the trace returned. *)
Definition returned (kind : event -> bool) (t : trace) : Prop :=
  Forall (fun ev => kind ev = true -> ev_raised ev = None) t.

Definition result_of (o : option exn) : result unit :=
  match o with
  | None => Ok tt
  | Some e => Raise e
  end.

(** What the [except] clause adds to the trace: the print, then, if the
    print returned, the fallback comment. *)
Definition fallback_events (raw : str) (e : exn) (po o : option exn) : trace :=
  Event (print_error e) po ::
  match po with
  | None => [Event (create_issue_comment (fallback_text raw)) o]
  | Some _ => []
  end.

(** What the handoff adds: the assignment, then, if it returned, the
    handoff comment. *)
Definition handoff_events (P : Process) (ao o : option exn) : trace :=
  Event (add_to_assignees (HUMAN_REVIEWER P)) ao ::
  match ao with
  | None => [Event (create_issue_comment (handoff_text P)) o]
  | Some _ => []
  end.

(** The line comments of the entries [args], all posted. *)
Definition posted (commit : Commit) (args : list (pyobj * pyobj * Z)) : trace :=
  map (fun a => done (entry_call commit a)) args.

(** The calls the Review Generator makes, and those the Comment Applier
    makes. *)
Definition generator_call (c : call) : bool :=
  match c with
  | read_file _ | get_commits | compare _ _ | generate_content _ _ => true
  | _ => false
  end.

Definition applier_call (c : call) : bool :=
  match c with
  | json_loads _ | create_review_comment _ _ _ _ | add_to_assignees _
  | create_issue_comment _ | print_error _ => true
  | _ => false
  end.

(** A parse or a line comment that raised. *)
Definition failed_parse_or_post (ev : event) : bool :=
  (is_json_loads ev || is_review_comment ev) && raised ev.

(** An assignment or a handoff comment that raised. *)
Definition failed_handoff (P : Process) (ev : event) : Prop :=
  (is_assignment ev = true \/
   ev_call ev = create_issue_comment (handoff_text P)) /\
  raised ev = true.

(** What [apply_line_comments] does once the loop has ended with the trace
    and the result [x]. *)
Definition after_loop (W : World) (P : Process) (raw : str)
  (x : trace * result unit) : trace * result unit :=
  match x with
  | (t2, Raise e) => fallback W raw e t2
  | (t2, Ok _) =>
      if contains READY_FOR_HUMAN_REVIEW raw
      then match handoff W P t2 with
           | (t3, Raise e) => fallback W raw e t3
           | (t3, Ok u) => (t3, Ok u)
           end
      else (t2, Ok tt)
  end.

(** How the [try] block of [apply_line_comments] can end. *)
Inductive body_end : Type :=
| ParseFailed (e : exn)
| NotIterable (e : exn)
| BadEntry (args : list (pyobj * pyobj * Z)) (e : exn)
| PostRejected (args : list (pyobj * pyobj * Z)) (a : pyobj * pyobj * Z)
    (e : exn)
| NoMarker (args : list (pyobj * pyobj * Z))
| HandedOff (args : list (pyobj * pyobj * Z)) (ao o : option exn).

(** The calls of the [try] block, by the way it ends. *)
Definition body_events (P : Process) (raw : str) (commit : Commit)
  (b : body_end) : trace :=
  match b with
  | ParseFailed e => [Event (json_loads (payload raw)) (Some e)]
  | NotIterable _ => [done (json_loads (payload raw))]
  | BadEntry args _ | NoMarker args =>
      done (json_loads (payload raw)) :: posted commit args
  | PostRejected args a e =>
      done (json_loads (payload raw)) :: posted commit args
      ++ [Event (entry_call commit a) (Some e)]
  | HandedOff args ao o =>
      done (json_loads (payload raw)) :: posted commit args
      ++ handoff_events P ao o
  end.

(** The exception the [try] block ends with, if any. *)
Definition body_raised (b : body_end) : option exn :=
  match b with
  | ParseFailed e | NotIterable e | BadEntry _ e | PostRejected _ _ e => Some e
  | NoMarker _ => None
  | HandedOff _ ao o => match ao with Some _ => ao | None => o end
  end.

(** When the [try] block ends that way, for a response and a world. *)
Definition body_ends (W : World) (P : Process) (raw : str) (commit : Commit)
  (t0 : trace) (b : body_end) : Prop :=
  let answer := W t0 (json_loads (payload raw)) in
  let wf := well_formed (int_max_str_digits P) in
  match b with
  | ParseFailed e => answer = Raise e
  | NotIterable e => exists comments, answer = Ok comments /\ iter comments = Raise e
  | BadEntry args e =>
      exists comments items c,
        answer = Ok comments /\ iter comments = Ok items /\
        Forall2 wf (take (length args) items) args /\
        items !! length args = Some c /\
        entry_args (int_max_str_digits P) c = Raise e
  | PostRejected args a e =>
      exists comments items c,
        answer = Ok comments /\ iter comments = Ok items /\
        Forall2 wf (take (length args) items) args /\
        items !! length args = Some c /\ wf c a /\
        W (t0 ++ done (json_loads (payload raw)) :: posted commit args)
          (entry_call commit a) = Raise e
  | NoMarker args =>
      exists comments items,
        answer = Ok comments /\ iter comments = Ok items /\
        Forall2 wf items args /\
        contains READY_FOR_HUMAN_REVIEW raw = false
  | HandedOff args ao o =>
      exists comments items,
        answer = Ok comments /\ iter comments = Ok items /\
        Forall2 wf items args /\
        contains READY_FOR_HUMAN_REVIEW raw = true
  end.

(** *** Sample data for the worked examples *)

Definition quoted (s : string) : str := dq ++ lit s ++ dq.

Definition demo_process : Process :=
  {| sys_argv := [lit "review-agent.py"; lit "42"];
     os_getenv := fun name =>
       if str_eqb name (lit "HUMAN_REVIEWER") then Some (lit "octocat")
       else None;
     int_max_str_digits := 4300 |}.

Definition demo_pr : PullRequest :=
  {| base_sha := lit "b1"; head_sha := lit "h1" |}.

Definition demo_commit : Commit := {| commit_sha := lit "c2" |}.

Definition demo_commits : list Commit :=
  [{| commit_sha := lit "c1" |}; demo_commit].

Definition demo_files : list File :=
  [{| filename := lit "lib/a.dart"; patch := Some (lit "+x") |};
   {| filename := lit "logo.png"; patch := None |}].

(** The calm world that answers the model's call with [text]. *)
Definition demo_world (text : str) : World :=
  calm_world 4300 demo_pr (lit "Be kind.") demo_commits demo_files text.

(** [W], except that the calls [bad] selects raise. *)
Definition failing (bad : call -> option exn) (W : World) : World :=
  fun t c =>
    match bad c with
    | Some e => Raise e
    | None => W t c
    end.

Definition marker_line : str := nl ++ lit "ACTION: READY_FOR_HUMAN_REVIEW".

(** One entry, with the given text for its "line". *)
Definition entry_text (line : str) : str :=
  lit "{" ++ quoted "path" ++ lit ":" ++ quoted "lib/a.dart" ++ lit ","
  ++ quoted "line" ++ lit ":" ++ line ++ lit ","
  ++ quoted "comment" ++ lit ":" ++ quoted "fix this" ++ lit "}".

(** The responses of the testable properties: no finding, one finding, and
    malformed JSON (a trailing comma), each followed by the marker. *)
Definition raw_empty : str := lit "[]" ++ marker_line.
Definition raw_one : str := lit "[" ++ entry_text (lit "10") ++ lit "]" ++ marker_line.
Definition raw_malformed : str :=
  lit "[" ++ entry_text (lit "10") ++ lit ",]" ++ marker_line.

(** A response whose "line" is a string of digits, and one whose "line"
    [int] cannot convert. *)
Definition raw_line_string : str :=
  lit "[" ++ entry_text (quoted "10") ++ lit "]" ++ marker_line.
Definition raw_line_null : str :=
  lit "[" ++ entry_text (lit "null") ++ lit "]" ++ marker_line.

(** A response with "ACTION:" inside a comment. *)
Definition raw_action_inside : str :=
  lit "[{" ++ quoted "path" ++ lit ":" ++ quoted "lib/a.dart" ++ lit ","
  ++ quoted "line" ++ lit ":10," ++ quoted "comment" ++ lit ":"
  ++ dq ++ lit "ACTION: rename this" ++ dq ++ lit "}]" ++ marker_line.

(** What the one entry of the sample responses asks for. *)
Definition demo_args : pyobj * pyobj * Z :=
  (PStr (lit "fix this"), PStr (lit "lib/a.dart"), 10%Z).

Definition demo_entry (line : pyobj) : pyobj :=
  PDict [(lit "path", PStr (lit "lib/a.dart")); (lit "line", line);
         (lit "comment", PStr (lit "fix this"))].

(** A world in which the pull request does not exist, and one in which the
    assignment is refused. *)
Definition no_pull_world : World :=
  failing (fun c => match c with
                    | get_pull _ => Some (OtherError 404)
                    | _ => None
                    end) (demo_world raw_one).

Definition no_assignee_world : World :=
  failing (fun c => match c with
                    | add_to_assignees _ => Some (OtherError 422)
                    | _ => None
                    end) (demo_world raw_one).

(** The JSON text of the sample responses. *)
Definition json_one : str := lit "[" ++ entry_text (lit "10") ++ lit "]".
Definition json_malformed : str := lit "[" ++ entry_text (lit "10") ++ lit ",]".

Definition octocat_handoff : str :=
  lit "AI Review complete. Reassigning to @octocat for final sign-off.".

(** The calls of the applier on [raw_one] in the calm world. *)
Definition trace_one : trace :=
  [done (json_loads json_one);
   done (create_review_comment (PStr (lit "fix this")) demo_commit
           (PStr (lit "lib/a.dart")) 10);
   done (add_to_assignees (Some (lit "octocat")));
   done (create_issue_comment octocat_handoff)].

(** The calls of the applier on [raw_malformed] in the calm world. *)
Definition trace_malformed : trace :=
  [Event (json_loads json_malformed) (Some JSONDecodeError);
   done (print_error JSONDecodeError);
   done (create_issue_comment (lit "AI Review Error: " ++ raw_malformed))].

(** The calls of the applier on [raw_one] when the assignment is refused. *)
Definition trace_refused : trace :=
  [done (json_loads json_one);
   done (create_review_comment (PStr (lit "fix this")) demo_commit
           (PStr (lit "lib/a.dart")) 10);
   Event (add_to_assignees (Some (lit "octocat"))) (Some (OtherError 422));
   done (print_error (OtherError 422));
   done (create_issue_comment (lit "AI Review Error: " ++ raw_one))].

(** A world whose standard output is closed: every [print] raises (errno 32,
    a broken pipe); and the same when the assignment is refused as well. *)
Definition closed_stdout (W : World) : World :=
  failing (fun c => match c with
                    | print_error _ => Some (OtherError 32)
                    | _ => None
                    end) W.

Definition closed_stdout_world : World :=
  closed_stdout (demo_world raw_malformed).
Definition closed_stdout_no_assignee_world : World :=
  closed_stdout no_assignee_world.

(** The calls of the applier on [raw_malformed], and on [raw_one] when the
    assignment is refused, with the standard output closed. *)
Definition trace_malformed_unprinted : trace :=
  [Event (json_loads json_malformed) (Some JSONDecodeError);
   Event (print_error JSONDecodeError) (Some (OtherError 32))].

Definition trace_refused_unprinted : trace :=
  [done (json_loads json_one);
   done (create_review_comment (PStr (lit "fix this")) demo_commit
           (PStr (lit "lib/a.dart")) 10);
   Event (add_to_assignees (Some (lit "octocat"))) (Some (OtherError 422));
   Event (print_error (OtherError 422)) (Some (OtherError 32))].

(** The prompt for the sample standards and files. *)
Definition demo_prompt : str :=
  prompt_head ++ lit "Be kind." ++ prompt_middle
  ++ (lit "File: lib/a.dart" ++ nl ++ lit "+x" ++ nl ++ nl
      ++ lit "File: logo.png" ++ nl ++ lit "None" ++ nl ++ nl)
  ++ prompt_tail.

(** The calls of the generator in the calm world. *)
Definition trace_review : trace :=
  [done (read_file standards_path); done get_commits;
   done (compare (lit "b1") (lit "h1"));
   done (generate_content model_name demo_prompt)].

(** The calls of the script when the pull request does not exist. *)
Definition trace_no_pull : trace :=
  [done (genai_configure None); done (Github None);
   done (get_repo repo_name);
   Event (get_pull 42) (Some (OtherError 404))].

(** The part of [raw_action_inside] before its last "ACTION:", and the part
    before its first. *)
Definition before_last_action : str :=
  lit "[{" ++ quoted "path" ++ lit ":" ++ quoted "lib/a.dart" ++ lit ","
  ++ quoted "line" ++ lit ":10," ++ quoted "comment" ++ lit ":"
  ++ dq ++ lit "ACTION: rename this" ++ dq ++ lit "}]" ++ nl.
Definition before_first_action : str :=
  lit "[{" ++ quoted "path" ++ lit ":" ++ quoted "lib/a.dart" ++ lit ","
  ++ quoted "line" ++ lit ":10," ++ quoted "comment" ++ lit ":" ++ dq.

End ReviewAgent.

(** ** The script: predicates and sample data for its edge cases *)

Module ReviewAgentCases.
Import PyStr PyObj ReviewAgent.

(** The objects [for c in o] cannot visit. *)
Definition is_scalar (o : pyobj) : bool :=
  match o with
  | PNone | PBool _ | PInt _ | PFloat _ => true
  | PStr _ | PList _ | PDict _ => false
  end.

(** The key [post_comment] asks an object for first without finding it: the
    keys are looked up in the order "comment", "path", "line". *)
Definition first_missing (items : list (str * pyobj)) : option str :=
  match dict_get items (lit "comment") with
  | None => Some (lit "comment")
  | Some _ =>
      match dict_get items (lit "path") with
      | None => Some (lit "path")
      | Some _ =>
          match dict_get items (lit "line") with
          | None => Some (lit "line")
          | Some _ => None
          end
      end
  end.

(** The calls of the module-level statements. *)
Definition setup_call (c : call) : bool :=
  match c with
  | genai_configure _ | Github _ | get_repo _ | get_pull _ => true
  | _ => false
  end.

(** The calls of the [except] clause and of the handoff: everything the
    applier does after the loop. *)
Definition after_loop_call (c : call) : bool :=
  match c with
  | add_to_assignees _ | create_issue_comment _ | print_error _ => true
  | _ => false
  end.

(** *** More sample data *)

(** A response that is a number, one that is a single object without the
    brackets, and one whose entry has no "line". *)
Definition raw_number : str := lit "42" ++ marker_line.
Definition raw_object : str := entry_text (lit "10") ++ marker_line.
Definition raw_no_line : str :=
  lit "[{" ++ quoted "path" ++ lit ":" ++ quoted "lib/a.dart" ++ lit ","
  ++ quoted "comment" ++ lit ":" ++ quoted "fix this" ++ lit "}]"
  ++ marker_line.

(** Two entries, the second on another file. *)
Definition second_entry_text : str :=
  lit "{" ++ quoted "path" ++ lit ":" ++ quoted "lib/b.dart" ++ lit ","
  ++ quoted "line" ++ lit ":7,"
  ++ quoted "comment" ++ lit ":" ++ quoted "rename" ++ lit "}".
Definition json_two : str :=
  lit "[" ++ entry_text (lit "10") ++ lit "," ++ second_entry_text ++ lit "]".
Definition raw_two : str := json_two ++ marker_line.
Definition second_entry : pyobj :=
  PDict [(lit "path", PStr (lit "lib/b.dart")); (lit "line", PInt 7);
         (lit "comment", PStr (lit "rename"))].

(** An array whose second element is a number. *)
Definition raw_mixed : str :=
  lit "[" ++ entry_text (lit "10") ++ lit ",7]" ++ marker_line.

(** One entry and no marker. *)
Definition raw_unmarked : str := json_one.

(** A world that refuses every issue comment, and one that refuses the line
    comments on lib/b.dart. *)
Definition no_issue_world : World :=
  failing (fun c => match c with
                    | create_issue_comment _ => Some (OtherError 403)
                    | _ => None
                    end) (demo_world raw_one).

Definition picky_world : World :=
  failing (fun c => match c with
                    | create_review_comment _ _ path _ =>
                        match path with
                        | PStr p => if str_eqb p (lit "lib/b.dart")
                                    then Some (OtherError 422) else None
                        | _ => None
                        end
                    | _ => None
                    end) (demo_world raw_two).

(** A calm world whose pull request has no commit. *)
Definition no_commit_world : World :=
  calm_world 4300 demo_pr (lit "Be kind.") [] demo_files raw_one.

(** A process started without the variable HUMAN_REVIEWER, and one started
    without an argument. *)
Definition anonymous_process : Process :=
  {| sys_argv := [lit "review-agent.py"; lit "42"];
     os_getenv := fun _ => None;
     int_max_str_digits := 4300 |}.

Definition bare_process : Process :=
  {| sys_argv := [lit "review-agent.py"];
     os_getenv := fun _ => None;
     int_max_str_digits := 4300 |}.

Definition setup_trace : trace :=
  [done (genai_configure None); done (Github None);
   done (get_repo repo_name); done (get_pull 42)].

End ReviewAgentCases.

(** * Properties

    ** Strings *)

Module PyStrFacts.
Import PyStr.

Lemma startswith_spec (p s : str) :
  startswith p s = true <-> exists r, s = p ++ r.
Proof.
  revert s. induction p as [|a p IH]; intros s; simpl.
  - split; eauto.
  - destruct s as [|b s]; simpl.
    + split; [discriminate | intros [r Hr]; discriminate].
    + rewrite andb_true_iff, N.eqb_eq, IH. split.
      * intros [-> [r ->]]. eauto.
      * intros [r Hr]. injection Hr as -> ->. eauto.
Qed.

Lemma contains_spec (p s : str) : contains p s = true <-> occurs p s.
Proof.
  unfold occurs. induction s as [|c s IH]; simpl.
  - rewrite orb_false_r, startswith_spec. split.
    + intros [r Hr]. by exists [], r.
    + intros (a & b & H). destruct a; [eauto | discriminate].
  - rewrite orb_true_iff, startswith_spec, IH. split.
    + intros [[r Hr] | (a & b & H)].
      * by exists [], r.
      * exists (c :: a), b. by rewrite H.
    + intros (a & b & H). destruct a as [|x a]; simpl in H.
      * left; eauto.
      * right. injection H as -> ->. by exists a, b.
Qed.

Lemma split_from_nonempty (sep : str) (k : nat) (s : str) :
  split_from sep k s <> [].
Proof.
  revert k; induction s as [|c s IH]; intros k; simpl; [done|].
  destruct k; [|apply IH].
  destruct (startswith sep (c :: s)); [done|].
  by destruct (split_from sep 0 s).
Qed.

Lemma split_head (sep s : str) :
  exists a rest,
    split sep s = a :: rest /\
    (before_first sep a s \/ (~ occurs sep s /\ a = s)).
Proof.
  unfold split, before_first, occurs. induction s as [|c s IH]; simpl.
  - exists [], []. split; [done|]. destruct sep as [|x sep].
    + left. split; [by exists [] | intros; simpl; lia].
    + right. split; [|done]. intros (a & b & H). destruct a; discriminate.
  - destruct (startswith sep (c :: s)) eqn:E.
    + eexists [], _. split; [done|]. left.
      apply startswith_spec in E as [r Hr].
      split; [by exists r | intros; simpl; lia].
    + destruct IH as (a & rest & Hs & Ha). rewrite Hs.
      exists (c :: a), rest. split; [done|].
      assert (Hno : ~ exists r, c :: s = sep ++ r).
      { rewrite <- startswith_spec. congruence. }
      destruct Ha as [[[b Hb] Hmin] | [Hno' ->]].
      * left. split; [exists b; simpl; by rewrite Hb|].
        intros a' b' H'. destruct a' as [|x a']; simpl in H'.
        -- exfalso; apply Hno; eauto.
        -- injection H' as -> H'. simpl. apply Hmin in H'. lia.
      * right. split; [|done]. intros (a' & b' & H').
        destruct a' as [|x a']; simpl in H'; [apply Hno; eauto|].
        injection H' as -> H'. apply Hno'. by exists a', b'.
Qed.

Lemma before_first_prefix (sep a0 a b s : str) :
  before_first sep a0 s -> s = a ++ sep ++ b -> a0 `prefix_of` a.
Proof.
  intros [[b0 H0] Hmin] H. specialize (Hmin _ _ H).
  rewrite H in H0.
  assert (Hp : take (length a0) (a ++ sep ++ b) = a0).
  { rewrite H0. by rewrite take_app_length. }
  rewrite take_app_le in Hp by done.
  exists (drop (length a0) a). by rewrite <- Hp at 1; rewrite take_drop.
Qed.

Lemma lstrip_spec (s : str) :
  exists l, s = l ++ lstrip s /\
            Forall (fun c => isspace c = true) l /\
            forall c, head (lstrip s) = Some c -> isspace c = false.
Proof.
  induction s as [|c s (l & Hl & Hsp & Hh)]; simpl.
  - exists []. repeat split; [constructor | discriminate].
  - destruct (isspace c) eqn:E.
    + exists (c :: l). repeat split; [simpl; by rewrite <- Hl | by constructor | done].
    + exists []. repeat split; [constructor|]. simpl. congruence.
Qed.

Lemma strip_spec (s : str) : stripped s (strip s).
Proof.
  unfold stripped, strip, rstrip.
  destruct (lstrip_spec s) as (l & Hl & Hsl & Hhl).
  destruct (lstrip_spec (reverse (lstrip s))) as (r & Hr & Hsr & Hhr).
  set (m := lstrip s) in *. set (m' := lstrip (reverse m)) in *.
  assert (Hm : m = reverse m' ++ reverse r).
  { rewrite <- reverse_app, <- Hr. by rewrite reverse_involutive. }
  exists l, (reverse r). repeat split.
  - by rewrite <- Hm.
  - done.
  - by apply Forall_reverse.
  - intros c Hc. apply Hhl. rewrite Hm.
    destruct (reverse m'); [discriminate|done].
  - intros c Hc. apply Hhr. by rewrite last_reverse in Hc.
Qed.

End PyStrFacts.

(** ** The JSON decoder *)

Module JsonFacts.
Import PyStr PyObj Json.

(** Case analysis on a character that the code matches against literals:
    [leaf] closes the cases it can. *)
Tactic Notation "by_bits" ident(c) tactic3(leaf) :=
  destruct c as [|c]; [leaf|];
  do 7 (try (destruct c as [c|c|]; try leaf)).

Lemma skip_ws_length (s : str) : (length (skip_ws s) <= length s)%nat.
Proof.
  induction s as [|c s IH]; simpl; [done|].
  destruct (is_ws c); simpl; lia.
Qed.

Lemma scanstring_eq (c : N) (rest : str) :
  scanstring (c :: rest) =
  if c =? 34 then Ok ([], rest)
  else if c =? 92 then
    match rest with
    | [] => Raise JSONDecodeError
    | e :: rest1 =>
        if e =? 117 then
          match rest1 with
          | a :: b :: c' :: d :: rest4 =>
              match hex4 a b c' d with
              | None => Raise JSONDecodeError
              | Some u =>
                  match (if is_high_surrogate u then low_escape rest4
                         else None), rest4 with
                  | Some lo, _ :: _ :: _ :: _ :: _ :: _ :: rest' =>
                      push (join_surrogates u lo) (scanstring rest')
                  | _, _ => push u (scanstring rest4)
                  end
              end
          | _ => Raise JSONDecodeError
          end
        else match escape e with
             | Some x => push x (scanstring rest1)
             | None => Raise JSONDecodeError
             end
    end
  else if c <=? 31 then Raise JSONDecodeError
  else push c (scanstring rest).
Proof.
  by_bits c reflexivity.
  all: try (destruct rest as [|e rest1]; [reflexivity|]; by_bits e reflexivity).
  all: destruct rest1 as [|a [|b [|c' [|d rest4]]]]; reflexivity.
Qed.

Lemma sound_raise {A} (n : nat) (e : exn) :
  e <> RecursionError -> sound (A := A) n (Raise e).
Proof. intros He. split; [congruence | discriminate]. Qed.

Lemma sound_ok {A} (n : nat) (v : A) (rest : str) :
  (length rest < n)%nat -> sound n (Ok (v, rest)).
Proof. intros H. split; [discriminate|]. by intros ? ? [= <- <-]. Qed.

Lemma sound_mono {A} (n n' : nat) (r : result (A * str)) :
  sound n r -> (n <= n')%nat -> sound n' r.
Proof.
  intros [H1 H2] Hn. split; [done|]. intros v rest Hr.
  specialize (H2 _ _ Hr). lia.
Qed.

(** A result passed on with its value changed. *)
Lemma sound_map {A B} (n : nat) (r : result (A * str)) (f : A -> B) :
  sound n r -> sound n (rbind r (fun p => Ok (f p.1, p.2))).
Proof.
  intros [H1 H2]. destruct r as [[v rest]|e]; simpl.
  - apply sound_ok. by eapply H2.
  - by apply sound_raise; congruence.
Qed.

Lemma sound_push (n : nat) (c : N) (r : result (str * str)) :
  sound n r -> sound n (push c r).
Proof. apply (sound_map n r (cons c)). Qed.

Lemma scanstring_sound (n : nat) :
  forall s, (length s <= n)%nat -> sound (length s) (scanstring s).
Proof.
  induction n as [|n IH]; intros s Hn.
  - destruct s; [|simpl in Hn; lia]. simpl. by apply sound_raise.
  - destruct s as [|c rest]; [simpl; by apply sound_raise|].
    rewrite scanstring_eq. simpl in Hn.
    assert (Hrec : forall s', (length s' <= length rest)%nat ->
                              sound (length (c :: rest)) (scanstring s')).
    { intros s' Hs'. eapply sound_mono; [apply IH; lia | simpl; lia]. }
    destruct (c =? 34); [apply sound_ok; simpl; lia|].
    destruct (c =? 92).
    + destruct rest as [|e rest1]; [by apply sound_raise|].
      destruct (e =? 117).
      * destruct rest1 as [|a [|b [|c' [|d rest4]]]];
          try by apply sound_raise.
        destruct (hex4 a b c' d) as [u|]; [|by apply sound_raise].
        destruct (if is_high_surrogate u then low_escape rest4 else None);
          [destruct rest4 as [|? [|? [|? [|? [|? [|? rest']]]]]]|];
          apply sound_push, Hrec; simpl; lia.
      * destruct (escape e); [|by apply sound_raise].
        apply sound_push, Hrec. simpl. lia.
    + destruct (c <=? 31); [by apply sound_raise|].
      apply sound_push, Hrec. lia.
Qed.

Lemma span_digits_length (s : str) :
  (length (span_digits s).2 <= length s)%nat.
Proof.
  induction s as [|c s IH]; simpl; [done|].
  destruct (is_digit c); [|simpl; lia].
  destruct (span_digits s). simpl in *. lia.
Qed.

Lemma match_int_shorter (s i r : str) :
  match_int s = Some (i, r) -> (length r < length s)%nat.
Proof.
  destruct s as [|c s']; [discriminate|].
  assert (Heq : match_int (c :: s') =
                if c =? 48 then Some ([48], s')
                else if is_digit c then Some (span_digits (c :: s'))
                else None) by (by_bits c reflexivity).
  rewrite Heq. destruct (c =? 48); [intros [= <- <-]; simpl; lia|].
  destruct (is_digit c) eqn:Ed; [|discriminate].
  simpl. rewrite Ed. pose proof (span_digits_length s') as Hl.
  destruct (span_digits s'). intros [= <- <-]. simpl in *. lia.
Qed.

Lemma match_frac_length (s : str) :
  (length (match_frac s).2 <= length s)%nat.
Proof.
  destruct s as [|c s']; [done|].
  assert (Heq : match_frac (c :: s') =
                if c =? 46 then
                  match s' with
                  | c2 :: _ =>
                      if is_digit c2
                      then let '(d, r) := span_digits s' in (Some d, r)
                      else (None, c :: s')
                  | [] => (None, c :: s')
                  end
                else (None, c :: s')) by (by_bits c reflexivity).
  rewrite Heq. destruct (c =? 46); [|done].
  destruct s' as [|c2 s'']; [done|]. destruct (is_digit c2); [|done].
  pose proof (span_digits_length (c2 :: s'')) as Hl.
  destruct (span_digits (c2 :: s'')). simpl in *. lia.
Qed.

Lemma match_exp_length (s : str) :
  (length (match_exp s).2 <= length s)%nat.
Proof.
  destruct s as [|c r]; [done|]. simpl.
  destruct ((c =? 101) || (c =? 69)); [|done].
  assert (Hsign : exists neg r1,
             match r with
             | 45 :: r' => (true, r')
             | 43 :: r' => (false, r')
             | _ => (false, r)
             end = (neg, r1) /\ (length r1 <= length r)%nat).
  { destruct r as [|x r']; [by exists false, []|].
    by_bits x (by (eexists _, _; split; [reflexivity | simpl; lia])). }
  destruct Hsign as (neg & r1 & -> & Hr1).
  pose proof (span_digits_length r1) as Hl.
  destruct (span_digits r1) as [[|d ds] r2]; simpl in *; lia.
Qed.

Lemma match_number_shorter (s rest : str) (n : number) :
  match_number s = Some (n, rest) -> (length rest < length s)%nat.
Proof.
  unfold match_number.
  assert (Hsign : exists neg s1,
             match s with
             | 45 :: r => (true, r)
             | _ => (false, s)
             end = (neg, s1) /\ (length s1 <= length s)%nat).
  { destruct s as [|x r]; [by exists false, []|].
    by_bits x (by (eexists _, _; split; [reflexivity | simpl; lia])). }
  destruct Hsign as (neg & s1 & -> & Hs1).
  destruct (match_int s1) as [[i r1]|] eqn:Ei; [|discriminate].
  apply match_int_shorter in Ei.
  pose proof (match_frac_length r1) as Hf.
  destruct (match_frac r1) as [f r2].
  pose proof (match_exp_length r2) as He.
  destruct (match_exp r2) as [e r3]. intros [= <- <-]. simpl in *. lia.
Qed.

Lemma number_value_no_overflow (m : nat) (n : number) :
  number_value m n <> Raise RecursionError.
Proof.
  unfold number_value.
  destruct (num_frac n), (num_exp n); try done.
  by destruct (within_digit_limit _ _).
Qed.

Lemma scan_scalar_sound (m : nat) (s : str) :
  s <> [] -> sound (length s) (scan_scalar m s).
Proof.
  intros Hs. assert (Hd : forall k, (0 < k)%nat ->
                                    (length (drop k s) < length s)%nat).
  { intros k Hk. rewrite length_drop. destruct s; [done|]. simpl. lia. }
  unfold scan_scalar.
  repeat (destruct (startswith _ s); [apply sound_ok, Hd; lia|]).
  destruct (match_number s) as [[n rest]|] eqn:En.
  - apply match_number_shorter in En.
    pose proof (number_value_no_overflow m n).
    destruct (number_value m n); simpl;
      [by apply sound_ok | apply sound_raise; congruence].
  - repeat (destruct (startswith _ s); [apply sound_ok, Hd; lia|]).
    by apply sound_raise.
Qed.

Lemma scan_once_eq (m fuel : nat) (c : N) (r : str) :
  scan_once m (S fuel) (c :: r) =
  if c =? 34 then rbind (scanstring r) (fun p => Ok (PStr p.1, p.2))
  else if c =? 123 then
    match skip_ws r with
    | 125 :: rest => Ok (PDict [], rest)
    | 34 :: r1 =>
        rbind (parse_members m fuel r1 [])
              (fun p => Ok (PDict (dict_of_pairs p.1), p.2))
    | _ => Raise JSONDecodeError
    end
  else if c =? 91 then
    match skip_ws r with
    | 93 :: rest => Ok (PList [], rest)
    | r1 => rbind (parse_elements m fuel r1 []) (fun p => Ok (PList p.1, p.2))
    end
  else scan_scalar m (c :: r).
Proof. by_bits c reflexivity. Qed.

Lemma parse_elements_eq (m fuel : nat) (s : str) (acc : list pyobj) :
  parse_elements m (S fuel) s acc =
  rbind (scan_once m fuel s) (fun p =>
    match skip_ws p.2 with
    | 93 :: rest => Ok (reverse (p.1 :: acc), rest)
    | 44 :: rest => parse_elements m fuel (skip_ws rest) (p.1 :: acc)
    | _ => Raise JSONDecodeError
    end).
Proof. reflexivity. Qed.

Lemma parse_members_eq (m fuel : nat) (s : str) (acc : list (str * pyobj)) :
  parse_members m (S fuel) s acc =
  rbind (scanstring s) (fun k =>
    match skip_ws k.2 with
    | 58 :: r =>
        rbind (scan_once m fuel (skip_ws r)) (fun p =>
          let acc' := (k.1, p.1) :: acc in
          match skip_ws p.2 with
          | 125 :: rest => Ok (reverse acc', rest)
          | 44 :: r1 =>
              match skip_ws r1 with
              | 34 :: r2 => parse_members m fuel r2 acc'
              | _ => Raise JSONDecodeError
              end
          | _ => Raise JSONDecodeError
          end)
    | _ => Raise JSONDecodeError
    end).
Proof. reflexivity. Qed.

(** With fuel for twice the length of the text the decoder does not run out
    of it, and every value it reads takes at least one character. *)
Lemma decoder_sound (m : nat) :
  forall fuel,
    (forall s, (2 * length s + 1 <= fuel)%nat ->
               sound (length s) (scan_once m fuel s)) /\
    (forall s acc, (2 * length s + 2 <= fuel)%nat ->
                   sound (length s) (parse_elements m fuel s acc)) /\
    (forall s acc, (2 * length s + 2 <= fuel)%nat ->
                   sound (length s) (parse_members m fuel s acc)).
Proof.
  induction fuel as [|fuel (IHv & IHe & IHm)].
  { repeat split; intros; lia. }
  split; [|split].
  - intros s Hb. destruct s as [|c r]; [by apply sound_raise|].
    simpl in Hb. rewrite scan_once_eq.
    destruct (c =? 34).
    { eapply sound_mono; [apply sound_map, (scanstring_sound (length r)); lia|].
      simpl. lia. }
    pose proof (skip_ws_length r) as Hw.
    destruct (c =? 123).
    { destruct (skip_ws r) as [|x r1]; [by apply sound_raise|]. simpl in Hw.
      by_bits x
        (first [ by apply sound_raise
               | solve [apply sound_ok; simpl; lia]
               | solve [eapply sound_mono;
                        [apply (sound_map _ _ (fun x => PDict (dict_of_pairs x))),
                           IHm; lia
                        | simpl; lia]] ]). }
    destruct (c =? 91); [|by apply scan_scalar_sound].
    assert (Hrec : forall r1, (length r1 <= length r)%nat ->
               sound (length (c :: r))
                 (rbind (parse_elements m fuel r1 [])
                    (fun p => Ok (PList p.1, p.2)))).
    { intros r1 Hr1. eapply sound_mono; [apply sound_map, IHe; lia|].
      simpl. lia. }
    destruct (skip_ws r) as [|x r1]; [by apply Hrec|]. simpl in Hw.
    by_bits x
      (first [ by apply Hrec | solve [apply sound_ok; simpl; lia] ]).
  - intros s acc Hb. rewrite parse_elements_eq.
    destruct (IHv s ltac:(lia)) as [Hv1 Hv2].
    destruct (scan_once m fuel s) as [[v rest]|e];
      [|apply sound_raise; congruence].
    specialize (Hv2 _ _ eq_refl). simpl.
    pose proof (skip_ws_length rest) as Hw.
    destruct (skip_ws rest) as [|x r1]; [by apply sound_raise|]. simpl in Hw.
    pose proof (skip_ws_length r1).
    by_bits x
      (first [ by apply sound_raise
             | solve [apply sound_ok; lia]
             | solve [eapply sound_mono; [apply IHe; lia | lia]] ]).
  - intros s acc Hb. rewrite parse_members_eq.
    destruct (scanstring_sound (length s) s ltac:(lia)) as [Hk1 Hk2].
    destruct (scanstring s) as [[k rest]|e];
      [|apply sound_raise; congruence].
    specialize (Hk2 _ _ eq_refl). simpl.
    pose proof (skip_ws_length rest) as Hw.
    destruct (skip_ws rest) as [|x r]; [by apply sound_raise|]. simpl in Hw.
    by_bits x (by apply sound_raise).
    pose proof (skip_ws_length r) as Hw'.
    destruct (IHv (skip_ws r) ltac:(lia)) as [Hv1 Hv2].
    destruct (scan_once m fuel (skip_ws r)) as [[v rest']|e];
      [|apply sound_raise; congruence].
    specialize (Hv2 _ _ eq_refl). simpl.
    pose proof (skip_ws_length rest') as Hw''.
    destruct (skip_ws rest') as [|y r1]; [by apply sound_raise|].
    simpl in Hw''.
    by_bits y (first [ by apply sound_raise | solve [apply sound_ok; lia] ]).
    pose proof (skip_ws_length r1) as Hw3.
    destruct (skip_ws r1) as [|z r2]; [by apply sound_raise|].
    simpl in Hw3.
    by_bits z
      (first [ by apply sound_raise
             | solve [eapply sound_mono; [apply IHm; lia | lia]] ]).
Qed.

(** [loads] never runs out of fuel. *)
Lemma loads_has_fuel (m : nat) (s : str) :
  loads m s <> Raise RecursionError.
Proof.
  assert (Hrun : rbind (scan_once m (2 * length s + 2) (skip_ws s))
                   (fun p => match skip_ws p.2 with
                             | [] => Ok p.1
                             | _ :: _ => Raise JSONDecodeError
                             end) <> Raise RecursionError).
  { pose proof (skip_ws_length s) as Hw.
    destruct (decoder_sound m (2 * length s + 2)) as (Hv & _ & _).
    destruct (Hv (skip_ws s) ltac:(lia)) as [Hv1 _].
    destruct (scan_once _ _ _) as [[v rest]|e]; simpl; [|congruence].
    by destruct (skip_ws rest). }
  unfold loads. destruct s as [|c s']; [exact Hrun|].
  destruct c as [|c]; [exact Hrun|].
  do 16 (try (destruct c as [c|c|]; try exact Hrun)).
Qed.

End JsonFacts.

(** ** The script *)

Module ReviewAgentFacts.
Import PyStr PyObj ReviewAgent PyStrFacts.
Local Open Scope py_scope.

Lemma posted_not_failed (commit : Commit) (args : list (pyobj * pyobj * Z)) :
  ~ Exists (fun ev => failed_parse_or_post ev = true) (posted commit args).
Proof.
  unfold posted. induction args as [|a args IH]; simpl.
  - by intros ?%Exists_nil.
  - intros [H|H]%Exists_cons; [by vm_compute in H | by apply IH].
Qed.

(** Membership of an event that is written out in a trace. *)
Ltac in_trace :=
  repeat first
    [ by apply elem_of_cons; left
    | apply elem_of_cons; right
    | apply elem_of_app; right ].

(** No event of the trace in [Hex] is a parse or a post that raised. *)
Ltac no_failure Hex :=
  repeat first
    [ by apply Exists_nil in Hex
    | apply Exists_cons in Hex as [Hex|Hex]; [by vm_compute in Hex|]
    | apply Exists_app in Hex as [Hex|Hex];
      [by apply posted_not_failed in Hex|] ].

(** Looking for the event of [Hin] in a trace that is written out. *)
Ltac find_event Hin :=
  repeat first
    [ by apply elem_of_nil in Hin
    | apply elem_of_cons in Hin as [Hin|Hin]; [try discriminate Hin|]
    | apply elem_of_app in Hin as [Hin|Hin] ].

(** Taking the new events out of a run. *)
Ltac new_events H :=
  rewrite <- ?app_assoc in H; simpl in H; rewrite <- ?app_assoc in H;
  apply app_inv_head in H.

Section Facts.
Context (W : World) (P : Process).

Lemma json_str_payload (raw : str) : json_str raw = Ok (payload raw).
Proof.
  unfold json_str, payload, first_piece, index.
  by destruct (split_head ACTION raw) as (a & rest & -> & _).
Qed.

Lemma payload_spec (raw : str) :
  exists a, payload raw = strip a /\
            (before_first ACTION a raw \/ (~ occurs ACTION raw /\ a = raw)).
Proof.
  unfold payload, first_piece.
  destruct (split_head ACTION raw) as (a & rest & -> & H). by exists a.
Qed.

Lemma entry_args_well_formed (n : nat) (c : pyobj) (a : pyobj * pyobj * Z) :
  entry_args n c = Ok a <-> well_formed n c a.
Proof.
  unfold entry_args, well_formed, getitem. split.
  - destruct c; try discriminate. intros H. exists items.
    destruct (dict_get items (lit "comment")); [|discriminate].
    destruct (dict_get items (lit "path")); [|discriminate].
    destruct (dict_get items (lit "line")) as [lv|]; [|discriminate].
    simpl in H. exists lv. destruct (int n lv); [|discriminate].
    simpl in H. injection H as <-. done.
  - intros (items & lv & -> & -> & -> & -> & H). simpl. rewrite H. simpl.
    by destruct a as [[? ?] ?].
Qed.

Lemma post_comment_run (commit : Commit) (c : pyobj) (t : trace) :
  post_comment W P commit c t =
  match entry_args (int_max_str_digits P) c with
  | Ok a => perform W (entry_call commit a) t
  | Raise e => (t, Raise e)
  end.
Proof.
  unfold post_comment, entry_args, bind, lift.
  destruct (getitem c (lit "comment")); [|done].
  destruct (getitem c (lit "path")); [|done].
  destruct (getitem c (lit "line")); [|done]. simpl.
  by destruct (int (int_max_str_digits P) _).
Qed.

Lemma fallback_run (raw : str) (e : exn) (t : trace) :
  fallback W raw e t =
  let t1 := t ++ [Event (print_error e) (outcome (W t (print_error e)))] in
  match W t (print_error e) with
  | Raise e' => (t1, Raise e')
  | Ok _ =>
      let q := W t1 (create_issue_comment (fallback_text raw)) in
      (t1 ++ [Event (create_issue_comment (fallback_text raw)) (outcome q)], q)
  end.
Proof.
  unfold fallback, bind, perform. simpl.
  by destruct (W t (print_error e)).
Qed.

Lemma handoff_run (t : trace) :
  handoff W P t =
  let c := add_to_assignees (HUMAN_REVIEWER P) in
  let t1 := t ++ [Event c (outcome (W t c))] in
  match W t c with
  | Raise e => (t1, Raise e)
  | Ok _ =>
      let q := W t1 (create_issue_comment (handoff_text P)) in
      (t1 ++ [Event (create_issue_comment (handoff_text P)) (outcome q)], q)
  end.
Proof.
  unfold handoff, bind, perform. simpl.
  by destruct (W t (add_to_assignees (HUMAN_REVIEWER P))).
Qed.

(** The loop: the entries are handled in order until one fails; an entry
    fails before its call (an argument cannot be evaluated) or in it. *)
Lemma for_each_posts (commit : Commit) (items : list pyobj) :
  forall t0 t r,
    for_each (post_comment W P commit) items t0 = (t, r) ->
    exists n args tail,
      Forall2 (well_formed (int_max_str_digits P)) (take n items) args /\
      t = t0 ++ posted commit args ++ tail /\
      ((n = length items /\ tail = [] /\ r = Ok tt) \/
       (exists c e, items !! n = Some c /\
                    entry_args (int_max_str_digits P) c = Raise e /\
                    tail = [] /\ r = Raise e) \/
       (exists c a e, items !! n = Some c /\
                      well_formed (int_max_str_digits P) c a /\
                      W (t0 ++ posted commit args) (entry_call commit a)
                      = Raise e /\
                      tail = [Event (entry_call commit a) (Some e)] /\
                      r = Raise e)).
Proof.
  induction items as [|c items IH]; intros t0 t r H; simpl in H.
  - injection H as <- <-. exists O, [], []. simpl. rewrite app_nil_r.
    repeat split; [constructor | by left].
  - unfold bind in H. rewrite post_comment_run in H.
    destruct (entry_args (int_max_str_digits P) c) as [a|e] eqn:Ea.
    + unfold perform in H. simpl in H.
      destruct (W t0 (entry_call commit a)) as [u|e] eqn:Ew; simpl in H.
      * apply IH in H as (n & args & tail & Hwf & -> & Hcases).
        exists (S n), (a :: args), tail. simpl. split; [|split].
        -- constructor; [by apply entry_args_well_formed | done].
        -- by rewrite <- !app_assoc.
        -- rewrite <- app_assoc in Hcases. simpl in Hcases.
           destruct Hcases as [(-> & -> & ->) | [H | H]]; [by left | right; by left | right; by right].
      * injection H as <- <-. exists O, [], [Event (entry_call commit a) (Some e)].
        simpl. split; [constructor|]. split; [done|]. right; right.
        exists c, a, e. rewrite app_nil_r. repeat split; try done.
        by apply entry_args_well_formed.
    + injection H as <- <-. exists O, [], []. simpl. rewrite app_nil_r.
      split; [constructor|]. split; [done|]. right; left. by exists c, e.
Qed.

Lemma fallback_trace (raw : str) (e : exn) (t t' : trace) (r : result unit) :
  fallback W raw e t = (t', r) ->
  exists po o,
    t' = t ++ fallback_events raw e po o /\
    r = result_of (match po with None => o | Some _ => po end).
Proof.
  rewrite fallback_run. simpl.
  destruct (W t (print_error e)) as [u|e'] eqn:Ep; simpl.
  - set (q := W _ (create_issue_comment _)).
    intros H. injection H as <- <-. exists None, (outcome q). split.
    + simpl. by rewrite <- app_assoc.
    + by destruct q as [[]|].
  - intros H. injection H as <- <-. by exists (Some e'), None.
Qed.

Lemma handoff_trace (t t' : trace) (r : result unit) :
  handoff W P t = (t', r) ->
  exists ao o,
    t' = t ++ handoff_events P ao o /\
    r = result_of (match ao with None => o | Some _ => ao end) /\
    ao = outcome (W t (add_to_assignees (HUMAN_REVIEWER P))) /\
    (ao = None ->
     o = outcome (W (t ++ [done (add_to_assignees (HUMAN_REVIEWER P))])
                    (create_issue_comment (handoff_text P)))).
Proof.
  rewrite handoff_run. simpl.
  destruct (W t (add_to_assignees _)) as [u|e'] eqn:Ep; simpl.
  - set (q := W _ (create_issue_comment _)).
    intros H. injection H as <- <-. exists None, (outcome q).
    split; [|split; [|done]].
    + simpl. by rewrite <- app_assoc.
    + by destruct q as [[]|].
  - intros H. injection H as <- <-. by exists (Some e'), None.
Qed.

Lemma apply_run (raw : str) (commit : Commit) (t0 : trace) :
  apply_line_comments W P raw commit t0 =
  let c := json_loads (payload raw) in
  let t1 := t0 ++ [Event c (outcome (W t0 c))] in
  match W t0 c with
  | Raise e => fallback W raw e t1
  | Ok comments =>
      match iter comments with
      | Raise e => fallback W raw e t1
      | Ok items =>
          match for_each (post_comment W P commit) items t1 with
          | (t2, Raise e) => fallback W raw e t2
          | (t2, Ok _) =>
              if contains READY_FOR_HUMAN_REVIEW raw
              then match handoff W P t2 with
                   | (t3, Raise e) => fallback W raw e t3
                   | (t3, Ok u) => (t3, Ok u)
                   end
              else (t2, Ok tt)
          end
      end
  end.
Proof.
  unfold apply_line_comments, try_except, bind, lift, perform.
  rewrite json_str_payload. simpl.
  destruct (W t0 (json_loads (payload raw))) as [comments|e]; [|done].
  destruct (iter comments) as [items|e]; [|done].
  destruct (for_each _ items _) as [t2 [[]|e]]; [|done].
  destruct (contains _ _); [|done].
  by destruct (handoff W P t2) as [t3 [[]|e]].
Qed.

(** Every run of [apply_line_comments]: the [try] block ends in one of the
    six ways, and the [except] clause runs exactly when it raised. *)
Lemma apply_cases (raw : str) (commit : Commit) (t0 t : trace)
  (r : result unit) :
  apply_line_comments W P raw commit t0 = (t, r) ->
  exists b,
    body_ends W P raw commit t0 b /\
    match body_raised b with
    | None => t = t0 ++ body_events P raw commit b /\ r = Ok tt
    | Some e =>
        exists po o,
          t = t0 ++ body_events P raw commit b ++ fallback_events raw e po o /\
          r = result_of (match po with None => o | Some _ => po end)
    end.
Proof.
  rewrite apply_run. simpl.
  destruct (W t0 (json_loads (payload raw))) as [comments|e] eqn:Ej; simpl.
  2: { intros (po & o & -> & ->)%fallback_trace. exists (ParseFailed e).
       split; [done|]. exists po, o. by rewrite <- app_assoc. }
  destruct (iter comments) as [items|e] eqn:Ei.
  2: { intros (po & o & -> & ->)%fallback_trace. exists (NotIterable e).
       split; [by exists comments|]. exists po, o. by rewrite <- app_assoc. }
  destruct (for_each _ items _) as [t2 r2] eqn:El.
  apply for_each_posts in El as (n & args & tail & Hwf & -> & Hc).
  assert (Hn : forall c, items !! n = Some c -> n = length args).
  { intros c Hc'. apply Forall2_length in Hwf. rewrite length_take in Hwf.
    apply lookup_lt_Some in Hc'. lia. }
  destruct Hc as [(-> & -> & ->) | [(c & e & Hc & He & -> & ->) |
                                    (c & a & e & Hc & Ha & Hw & -> & ->)]].
  - rewrite firstn_all in Hwf. rewrite app_nil_r.
    destruct (contains READY_FOR_HUMAN_REVIEW raw) eqn:Em.
    + destruct (handoff W P _) as [t3 r3] eqn:Eh.
      apply handoff_trace in Eh as (ao & o & -> & -> & _).
      destruct ao as [e|]; [|destruct o as [e|]]; simpl.
      * intros (po & o' & -> & ->)%fallback_trace.
        exists (HandedOff args (Some e) o). split; [by exists comments, items|].
        exists po, o'. simpl. by rewrite <- !app_assoc.
      * intros (po & o' & -> & ->)%fallback_trace.
        exists (HandedOff args None (Some e)).
        split; [by exists comments, items|].
        exists po, o'. simpl. by rewrite <- !app_assoc.
      * intros H. injection H as <- <-. exists (HandedOff args None None).
        split; [by exists comments, items|]. simpl. by rewrite <- !app_assoc.
    + intros H. injection H as <- <-. exists (NoMarker args).
      split; [by exists comments, items|]. simpl. by rewrite <- !app_assoc.
  - rewrite app_nil_r. intros (po & o & -> & ->)%fallback_trace.
    pose proof (Hn _ Hc) as ->. exists (BadEntry args e).
    split; [by exists comments, items, c|].
    exists po, o. simpl. by rewrite <- !app_assoc.
  - intros (po & o & -> & ->)%fallback_trace.
    pose proof (Hn _ Hc) as ->. exists (PostRejected args a e).
    split.
    + exists comments, items, c. repeat split; try done.
      by rewrite <- app_assoc in Hw.
    + exists po, o. simpl. by rewrite <- !app_assoc.
Qed.

Lemma well_formed_inj (n : nat) (c : pyobj) (a a' : pyobj * pyobj * Z) :
  well_formed n c a -> well_formed n c a' -> a = a'.
Proof. rewrite <- !entry_args_well_formed. congruence. Qed.

Lemma Forall2_well_formed_inj (n : nat) (items : list pyobj)
  (args args' : list (pyobj * pyobj * Z)) :
  Forall2 (well_formed n) items args -> Forall2 (well_formed n) items args' ->
  args = args'.
Proof.
  intros H. revert args'. induction H as [|c a items args Ha _ IH];
    intros args' H'; inversion H'; subst; [done|].
  f_equal; [by eapply well_formed_inj | by apply IH].
Qed.

Lemma well_formed_not_raise (n : nat) (items : list pyobj)
  (args : list (pyobj * pyobj * Z)) (k : nat) (c : pyobj) (e : exn) :
  Forall2 (well_formed n) items args -> items !! k = Some c ->
  entry_args n c <> Raise e.
Proof.
  intros H Hc. destruct (Forall2_lookup_l _ _ _ _ _ H Hc) as (a & _ & Ha).
  apply entry_args_well_formed in Ha. congruence.
Qed.

Lemma filter_review_posted (commit : Commit) (args : list (pyobj * pyobj * Z)) :
  List.filter is_review_comment (posted commit args) = posted commit args.
Proof. induction args as [|a args IH]; simpl; [done | by rewrite IH]. Qed.

Lemma filter_issue_posted (commit : Commit) (args : list (pyobj * pyobj * Z)) :
  List.filter is_issue_comment (posted commit args) = [].
Proof. induction args as [|a args IH]; simpl; [done | by rewrite IH]. Qed.

Lemma returned_elem (kind : event -> bool) (t : trace) (ev : event) :
  returned kind t -> ev ∈ t -> kind ev = true -> ev_raised ev = None.
Proof. unfold returned. rewrite Forall_forall. auto. Qed.

Lemma returned_print (t : trace) (e : exn) (po : option exn) :
  returned is_print t -> Event (print_error e) po ∈ t -> po = None.
Proof. intros H Hin. by apply (returned_elem _ _ _ H Hin). Qed.

Lemma apply_after_loop (raw : str) (commit : Commit) (t0 : trace)
  (comments : pyobj) (items : list pyobj) :
  W t0 (json_loads (payload raw)) = Ok comments ->
  iter comments = Ok items ->
  apply_line_comments W P raw commit t0 =
  after_loop W P raw
    (for_each (post_comment W P commit) items
       (t0 ++ [done (json_loads (payload raw))])).
Proof.
  intros Hj Hi. rewrite apply_run. simpl. rewrite Hj, Hi. simpl.
  by destruct (for_each _ items _) as [t2 [[]|e]].
Qed.

Lemma after_loop_extends (raw : str) (t : trace) (r : result unit) :
  exists rest, (after_loop W P raw (t, r)).1 = t ++ rest.
Proof.
  unfold after_loop. destruct r as [[]|e].
  - destruct (contains _ _); [|exists []; by rewrite app_nil_r].
    destruct (handoff W P t) as [t3 r3] eqn:Eh.
    apply handoff_trace in Eh as (ao & o & -> & _).
    destruct r3 as [u|e]; [by eexists|].
    destruct (fallback W raw e _) as [t4 r4] eqn:Ef.
    apply fallback_trace in Ef as (po & o' & -> & _).
    eexists. by rewrite <- app_assoc.
  - destruct (fallback W raw e t) as [t4 r4] eqn:Ef.
    apply fallback_trace in Ef as (po & o' & -> & _). by eexists.
Qed.

Lemma for_each_app {A} (f : A -> M unit) (xs ys : list A) (t : trace) :
  for_each f (xs ++ ys) t =
  match for_each f xs t with
  | (t', Ok _) => for_each f ys t'
  | (t', Raise e) => (t', Raise e)
  end.
Proof.
  revert t. induction xs as [|x xs IH]; intros t; simpl; [done|].
  unfold bind. destruct (f x t) as [t1 [[]|e]]; [apply IH | done].
Qed.

Lemma for_each_extends (commit : Commit) (items : list pyobj) (t t' : trace)
  (r : result unit) :
  for_each (post_comment W P commit) items t = (t', r) ->
  exists rest, t' = t ++ rest.
Proof. intros (n & args & tail & _ & -> & _)%for_each_posts. by eexists. Qed.

Lemma scan_digits_all (s : str) (acc : Z) (count : nat) :
  Forall (fun c => is_digit c = true) s ->
  scan_digits s acc count false
  = Some (fold_left (fun v c => (10 * v + Z.of_N (c - 48))%Z) s acc,
          (count + length s)%nat, []).
Proof.
  intros H. revert acc count. induction H as [|c s Hc _ IH]; intros acc count.
  - simpl. by rewrite Nat.add_0_r.
  - simpl. rewrite Hc, IH. do 3 f_equal. lia.
Qed.

Lemma transform_ascii (s : str) :
  Forall (fun c => c < 127) s -> transform s = Some s.
Proof.
  induction 1 as [|c s Hc _ IH]; simpl; [done|].
  unfold to_ascii_decimal. apply N.ltb_lt in Hc. by rewrite Hc, IH.
Qed.

Lemma is_digit_cases (c : N) :
  is_digit c = true ->
  c = 48 \/ c = 49 \/ c = 50 \/ c = 51 \/ c = 52 \/ c = 53 \/ c = 54
  \/ c = 55 \/ c = 56 \/ c = 57.
Proof. unfold is_digit. rewrite andb_true_iff, !N.leb_le. lia. Qed.

(** [int] of a non-empty string of ASCII digits that passes the digit limit
    is the number the digits write. *)
Lemma int_of_digits (n : nat) (s : str) :
  s <> [] -> Forall (fun c => is_digit c = true) s ->
  within_digit_limit n (length s) = true ->
  int n (PStr s) = Ok (Json.digits_value s).
Proof.
  intros Hne Hd Hlim. simpl. unfold int_of_str.
  rewrite transform_ascii.
  2: { eapply Forall_impl; [exact Hd|]. intros c Hc%is_digit_cases. lia. }
  destruct s as [|c s]; [done|]. apply Forall_cons in Hd as [Hc Hs].
  assert (skip_ascii_space (c :: s) = c :: s) as ->.
  { simpl. by destruct (is_digit_cases c Hc) as [->|[->|[->|[->|[->|
      [->|[->|[->|[->| ->]]]]]]]]]. }
  assert (scan_digits (c :: s) 0 0 false
          = Some (Json.digits_value (c :: s), length (c :: s), [])) as Hscan.
  { rewrite scan_digits_all by by constructor. done. }
  destruct (is_digit_cases c Hc) as [->|[->|[->|[->|[->|
      [->|[->|[->|[->| ->]]]]]]]]];
    rewrite Hscan; simpl length in *; cbv beta iota; by rewrite Hlim.
Qed.

Lemma apply_starts (raw : str) (commit : Commit) (t0 : trace) :
  exists rest,
    (apply_line_comments W P raw commit t0).1
    = t0 ++ Event (json_loads (payload raw))
                  (outcome (W t0 (json_loads (payload raw)))) :: rest.
Proof.
  destruct (W t0 (json_loads (payload raw))) as [comments|e] eqn:Ej.
  - destruct (iter comments) as [items|e] eqn:Ei.
    + rewrite (apply_after_loop _ _ _ _ _ Ej Ei).
      destruct (for_each _ items _) as [t2 r2] eqn:El.
      apply for_each_extends in El as [rest ->].
      destruct (after_loop_extends raw ((t0 ++ [done (json_loads (payload raw))])
                                        ++ rest) r2) as [rest' ->].
      exists (rest ++ rest'). by rewrite <- !app_assoc.
    + rewrite apply_run. simpl. rewrite Ej, Ei. simpl.
      destruct (fallback W raw e _) as [t4 r4] eqn:Ef.
      apply fallback_trace in Ef as (po & o' & -> & _).
      eexists. by rewrite <- app_assoc.
  - rewrite apply_run. simpl. rewrite Ej. simpl.
    destruct (fallback W raw e _) as [t4 r4] eqn:Ef.
    apply fallback_trace in Ef as (po & o' & -> & _).
    eexists. by rewrite <- app_assoc.
Qed.

Lemma posted_not_raised (commit : Commit) (args : list (pyobj * pyobj * Z)) :
  ~ Exists (fun ev => raised ev = true) (posted commit args).
Proof.
  unfold posted. induction args as [|a args IH]; simpl.
  - by intros ?%Exists_nil.
  - intros [H|H]%Exists_cons; [by vm_compute in H | by apply IH].
Qed.

(** The loop that builds [diff_content] concatenates what it adds for each
    file, in the order of the files. *)
Lemma diff_content_concat (files : list File) (acc : str) :
  fold_left add_file files acc = acc ++ concat (map render_file files).
Proof.
  revert acc. induction files as [|f files IH]; intros acc.
  - cbn [fold_left map concat]. by rewrite app_nil_r.
  - cbn [fold_left map concat]. rewrite IH. unfold add_file, render_file.
    by rewrite <- !app_assoc.
Qed.

(** Every run of [get_line_specific_review]: the four calls in order, up to
    the first that raises. *)
Lemma review_cases (pr : PullRequest) (t0 t : trace)
  (r : result (str * Commit)) :
  get_line_specific_review W pr t0 = (t, r) ->
  let c1 := read_file standards_path in
  let c2 := get_commits in
  let c3 := compare (base_sha pr) (head_sha pr) in
  (exists e, W t0 c1 = Raise e /\ t = t0 ++ [Event c1 (Some e)] /\ r = Raise e) \/
  exists standards,
    W t0 c1 = Ok standards /\
    ((exists e, W (t0 ++ [done c1]) c2 = Raise e /\
                t = t0 ++ [done c1; Event c2 (Some e)] /\ r = Raise e) \/
     exists commits,
       W (t0 ++ [done c1]) c2 = Ok commits /\
       ((last commits = None /\ t = t0 ++ [done c1; done c2] /\
         r = Raise IndexError) \/
        exists latest,
          last commits = Some latest /\
          ((exists e, W (t0 ++ [done c1; done c2]) c3 = Raise e /\
                      t = t0 ++ [done c1; done c2; Event c3 (Some e)] /\
                      r = Raise e) \/
           exists files,
             W (t0 ++ [done c1; done c2]) c3 = Ok files /\
             let c4 := generate_content model_name
                         (make_prompt standards
                            (concat (map render_file files))) in
             exists o,
               t = t0 ++ [done c1; done c2; done c3; Event c4 o] /\
               o = outcome (W (t0 ++ [done c1; done c2; done c3]) c4) /\
               r = rbind (W (t0 ++ [done c1; done c2; done c3]) c4)
                     (fun text => Ok (text, latest))))).
Proof.
  intros H. cbv zeta.
  unfold get_line_specific_review, bind, perform, lift, ret in H. simpl in H.
  destruct (W t0 (read_file standards_path)) as [standards|e] eqn:E1;
    simpl in H.
  2: { injection H as <- <-. left. by exists e. }
  right. exists standards. split; [done|].
  destruct (W _ get_commits) as [commits|e] eqn:E2; simpl in H.
  2: { injection H as <- <-. left. exists e. by rewrite <- ?app_assoc. }
  right. exists commits. split; [done|].
  unfold index in H. rewrite <- head_lookup, head_reverse in H.
  destruct (last commits) as [latest|] eqn:E3.
  2: { injection H as <- <-. left. by rewrite <- ?app_assoc. }
  right. exists latest. split; [done|].
  rewrite <- !app_assoc in H. simpl in H.
  destruct (W _ (compare _ _)) as [files|e] eqn:E4; simpl in H.
  2: { injection H as <- <-. left. exists e. by rewrite <- ?app_assoc. }
  right. exists files. split; [done|].
  rewrite diff_content_concat in H. simpl in H.
  rewrite <- !app_assoc in H. simpl in H. revert H.
  set (c4 := generate_content _ _).
  destruct (W _ c4) as [text|e] eqn:E5; intros H; injection H as <- <-;
    by eexists.
Qed.

Lemma setup_cases (t0 t : trace) (r : result PullRequest) :
  setup W P t0 = (t, r) ->
  (exists e, PR_NUMBER P = Raise e /\ t = t0 /\ r = Raise e) \/
  exists number,
    PR_NUMBER P = Ok number /\
    let c1 := genai_configure (GEMINI_API_KEY P) in
    let c2 := Github (GITHUB_TOKEN P) in
    let c3 := get_repo repo_name in
    let c4 := get_pull number in
    ((exists e, t = t0 ++ [Event c1 (Some e)] /\ r = Raise e) \/
     (exists e, t = t0 ++ [done c1; Event c2 (Some e)] /\ r = Raise e) \/
     (exists e, t = t0 ++ [done c1; done c2; Event c3 (Some e)] /\
                r = Raise e) \/
     (exists e, t = t0 ++ [done c1; done c2; done c3; Event c4 (Some e)] /\
                r = Raise e) \/
     (exists pr, t = t0 ++ [done c1; done c2; done c3; done c4] /\ r = Ok pr)).
Proof.
  intros H. unfold setup, bind, perform, lift in H.
  destruct (PR_NUMBER P) as [number|e] eqn:En.
  2: { injection H as <- <-. left. by exists e. }
  right. exists number. split; [done|]. cbv zeta.
  destruct (W t0 (genai_configure _)) as [[]|e] eqn:E1; simpl in H.
  2: { injection H as <- <-. left. by exists e. }
  destruct (W _ (Github _)) as [[]|e] eqn:E2; simpl in H.
  2: { injection H as <- <-. right; left. exists e. by rewrite <- ?app_assoc. }
  destruct (W _ (get_repo _)) as [[]|e] eqn:E3; simpl in H.
  2: { injection H as <- <-. right; right; left. exists e.
       by rewrite <- ?app_assoc. }
  destruct (W _ (get_pull _)) as [pr|e] eqn:E4; simpl in H.
  2: { injection H as <- <-. right; right; right; left. exists e.
       by rewrite <- ?app_assoc. }
  injection H as <- <-. right; right; right; right. exists pr.
  by rewrite <- ?app_assoc.
Qed.

Lemma generator_calls (pr : PullRequest) (t0 t : trace)
  (r : result (str * Commit)) :
  get_line_specific_review W pr t0 = (t, r) ->
  exists new, t = t0 ++ new /\
              Forall (fun ev => generator_call (ev_call ev) = true) new.
Proof.
  intros H. apply review_cases in H. cbv zeta in H.
  destruct H as [(e & _ & -> & _) | (standards & Hs & H)].
  { eexists. split; [done|]. by repeat constructor. }
  destruct H as [(e & _ & -> & _) | (commits & _ & H)].
  { eexists. split; [done|]. by repeat constructor. }
  destruct H as [(_ & -> & _) | (latest & _ & H)].
  { eexists. split; [done|]. by repeat constructor. }
  destruct H as [(e & _ & -> & _) | (files & Hf & o' & -> & _ & _)].
  { eexists. split; [done|]. by repeat constructor. }
  eexists. split; [done|]. by repeat constructor.
Qed.

Lemma applier_calls (raw : str) (commit : Commit) (t0 t : trace)
  (r : result unit) :
  apply_line_comments W P raw commit t0 = (t, r) ->
  exists new, t = t0 ++ new /\
              Forall (fun ev => applier_call (ev_call ev) = true) new.
Proof.
  intros H. apply apply_cases in H as (b & _ & Ht).
  assert (Hp : forall args,
             Forall (fun ev => applier_call (ev_call ev) = true)
               (posted commit args)).
  { intros args. unfold posted. induction args; simpl; by constructor. }
  assert (Hb : Forall (fun ev => applier_call (ev_call ev) = true)
                 (body_events P raw commit b)).
  { destruct b as [e|e|args e|args a e|args|args ao o]; simpl;
      repeat first [ done | apply Forall_cons; split | apply Forall_app; split
                   | apply Hp ].
    destruct ao; by repeat constructor. }
  destruct (body_raised b) as [e|].
  - destruct Ht as (po & o & -> & _). eexists. split; [done|].
    apply Forall_app. split; [done|]. destruct po; by repeat constructor.
  - destruct Ht as [-> _]. by eexists.
Qed.

(** C4.  The text handed to [json.loads] is the raw response up to the
    first "ACTION:" (the whole response when there is none), without the
    white space at its two ends. *)
Theorem payload_is_text_before_ACTION (raw : str) (commit : Commit)
  (t0 : trace) :
  exists a rest,
    (before_first ACTION a raw \/ (~ occurs ACTION raw /\ a = raw)) /\
    stripped a (strip a) /\
    json_str raw = Ok (strip a) /\
    (apply_line_comments W P raw commit t0).1
    = t0 ++ Event (json_loads (strip a))
                  (outcome (W t0 (json_loads (strip a)))) :: rest.
Proof.
  destruct (payload_spec raw) as (a & Hp & Ha).
  destruct (apply_starts raw commit t0) as [rest Hrun].
  exists a, rest. rewrite <- Hp. repeat split; try done.
  - rewrite Hp. apply strip_spec.
  - apply json_str_payload.
Qed.

(** C8.  Wherever "ACTION:" occurs in the raw response, also inside the
    JSON text, the payload is cut at the first occurrence: the text handed
    to [json.loads] comes from a prefix of what precedes any occurrence. *)
Theorem payload_cut_at_first_ACTION (raw a b : str) (commit : Commit)
  (t0 : trace) :
  raw = a ++ ACTION ++ b ->
  exists a0 rest,
    a0 `prefix_of` a /\
    before_first ACTION a0 raw /\
    json_str raw = Ok (strip a0) /\
    (apply_line_comments W P raw commit t0).1
    = t0 ++ Event (json_loads (strip a0))
                  (outcome (W t0 (json_loads (strip a0)))) :: rest.
Proof.
  intros Hraw. destruct (payload_spec raw) as (a0 & Hp & Ha).
  destruct (apply_starts raw commit t0) as [rest Hrun].
  destruct Ha as [Ha | [Hno _]]; [|exfalso; apply Hno; by exists a, b].
  exists a0, rest. rewrite <- Hp. repeat split; try done.
  - by eapply before_first_prefix.
  - by destruct Ha.
  - by destruct Ha.
  - apply json_str_payload.
Qed.

(** C3. When the payload parses to a sequence of N well-formed entries and
    every line-comment call of the run returns, the run makes exactly N
    line-comment calls: the k-th carries the comment, the path and the line
    (as [int] converts it) of the k-th entry, in the order of the parsed
    sequence, all on the commit the applier was given. *)
Theorem line_comments_in_order (raw : str) (commit : Commit) (t0 new : trace)
  (r : result unit) (comments : pyobj) (items : list pyobj)
  (args : list (pyobj * pyobj * Z)) :
  W t0 (json_loads (payload raw)) = Ok comments ->
  iter comments = Ok items ->
  Forall2 (well_formed (int_max_str_digits P)) items args ->
  apply_line_comments W P raw commit t0 = (t0 ++ new, r) ->
  returned is_review_comment new ->
  List.filter is_review_comment new = posted commit args /\
  length (List.filter is_review_comment new) = length items.
Proof.
  intros Hj Hi Hwf Hrun Hret.
  assert (Hlen : length (posted commit args) = length items).
  { unfold posted. rewrite length_map. symmetry. by eapply Forall2_length. }
  cut (List.filter is_review_comment new = posted commit args).
  { intros ->. done. }
  apply apply_cases in Hrun as (b & Hb & Ht).
  destruct b as [e|e|args' e|args' a e|args'|args' ao o]; simpl in Hb, Ht.
  - congruence.
  - destruct Hb as (? & ? & ?). congruence.
  - destruct Hb as (? & items' & c & ? & ? & _ & Hc & He).
    assert (items' = items) as -> by congruence.
    by eapply well_formed_not_raise in He.
  - destruct Ht as (po & o & Ht & _). new_events Ht. subst new.
    eapply (returned_elem _ _ (Event (entry_call commit a) (Some e))) in Hret;
      [done | in_trace | done].
  - destruct Hb as (? & items' & ? & ? & Hwf' & _).
    assert (items' = items) as -> by congruence.
    rewrite (Forall2_well_formed_inj _ _ _ _ Hwf' Hwf) in Ht.
    destruct Ht as [Ht _]. new_events Ht. subst new. simpl.
    by rewrite filter_review_posted.
  - destruct Hb as (? & items' & ? & ? & Hwf' & _).
    assert (items' = items) as -> by congruence.
    rewrite (Forall2_well_formed_inj _ _ _ _ Hwf' Hwf) in Ht.
    destruct (match ao with Some _ => ao | None => o end).
    + destruct Ht as (po & o' & Ht & _). new_events Ht. subst new. simpl.
      rewrite List.filter_app, filter_review_posted.
      destruct ao, po; simpl; by rewrite ?app_nil_r.
    + destruct Ht as [Ht _]. new_events Ht. subst new. simpl.
      rewrite List.filter_app, filter_review_posted.
      destruct ao; simpl; by rewrite ?app_nil_r.
Qed.

(** C9.  The "line" value of an entry goes through [int] before the call.
    For an entry the loop reaches: when [int] converts the value, the line
    comment is posted at the integer it gives, and a string of decimal digits
    is converted to the number the digits write; when [int] raises, no call
    is made for the entry and the run continues in the [except] clause. *)
Theorem line_value_is_coerced (raw : str) (commit : Commit) (t0 t2 : trace)
  (comments : pyobj) (before after : list pyobj)
  (d : list (str * pyobj)) (body path value : pyobj) :
  W t0 (json_loads (payload raw)) = Ok comments ->
  iter comments = Ok (before ++ PDict d :: after) ->
  for_each (post_comment W P commit) before
    (t0 ++ [done (json_loads (payload raw))]) = (t2, Ok tt) ->
  dict_get d (lit "comment") = Some body ->
  dict_get d (lit "path") = Some path ->
  dict_get d (lit "line") = Some value ->
  match int (int_max_str_digits P) value with
  | Ok line =>
      exists o rest,
        (apply_line_comments W P raw commit t0).1
        = t2 ++ Event (create_review_comment body commit path line) o :: rest
  | Raise e => apply_line_comments W P raw commit t0 = fallback W raw e t2
  end /\
  (forall s, value = PStr s -> s <> [] ->
             Forall (fun c => is_digit c = true) s ->
             within_digit_limit (int_max_str_digits P) (length s) = true ->
             int (int_max_str_digits P) value = Ok (Json.digits_value s)).
Proof.
  intros Hj Hi Hb Hc Hp Hl. split; [|intros s ->; apply int_of_digits].
  rewrite (apply_after_loop _ _ _ _ _ Hj Hi), for_each_app, Hb.
  cbn [for_each]. unfold bind. rewrite post_comment_run.
  assert (Hargs : entry_args (int_max_str_digits P) (PDict d)
                  = rbind (int (int_max_str_digits P) value)
                      (fun line => Ok (body, path, line))).
  { unfold entry_args, getitem. by rewrite Hc, Hp, Hl. }
  rewrite Hargs.
  destruct (int (int_max_str_digits P) value) as [line|e]; [|done].
  cbn [rbind]. unfold perform. set (c := entry_call _ _).
  destruct (W t2 c) as [[]|e]; cbn [outcome].
  - destruct (for_each _ after _) as [t3 r3] eqn:Ea.
    apply for_each_extends in Ea as [rest ->].
    destruct (after_loop_extends raw ((t2 ++ [Event c None]) ++ rest) r3)
      as [rest' ->].
    exists None, (rest ++ rest'). by rewrite <- !app_assoc.
  - destruct (after_loop_extends raw (t2 ++ [Event c (Some e)]) (Raise e))
      as [rest' ->].
    exists (Some e), rest'. by rewrite <- !app_assoc.
Qed.

(** C1, as amended.  When the marker occurs in the raw response, the payload
    parses to a sequence of well-formed entries and every call of the run
    returns, the run ends with the assignment of the configured reviewer
    followed by one handoff comment that names the reviewer, after the line
    comments; nothing else is posted. *)
Theorem handoff_after_success (raw : str) (commit : Commit) (t0 new : trace)
  (r : result unit) (comments : pyobj) (items : list pyobj)
  (args : list (pyobj * pyobj * Z)) :
  occurs READY_FOR_HUMAN_REVIEW raw ->
  W t0 (json_loads (payload raw)) = Ok comments ->
  iter comments = Ok items ->
  Forall2 (well_formed (int_max_str_digits P)) items args ->
  apply_line_comments W P raw commit t0 = (t0 ++ new, r) ->
  Forall (fun ev => ev_raised ev = None) new ->
  new = done (json_loads (payload raw)) :: posted commit args
        ++ [done (add_to_assignees (HUMAN_REVIEWER P));
            done (create_issue_comment
                    (lit "AI Review complete. Reassigning to @"
                     ++ format_opt (HUMAN_REVIEWER P)
                     ++ lit " for final sign-off."))] /\
  r = Ok tt.
Proof.
  intros Hm Hj Hi Hwf Hrun Hret. apply contains_spec in Hm.
  apply apply_cases in Hrun as (b & Hb & Ht).
  destruct b as [e|e|args' e|args' a e|args'|args' ao o]; simpl in Hb, Ht.
  - congruence.
  - destruct Hb as (? & ? & ?). congruence.
  - destruct Hb as (? & items' & c & ? & ? & _ & Hc & He).
    assert (items' = items) as -> by congruence.
    by eapply well_formed_not_raise in He.
  - destruct Ht as (po & o & Ht & _). new_events Ht. subst new.
    rewrite Forall_forall in Hret.
    by specialize (Hret (Event (entry_call commit a) (Some e)) ltac:(in_trace)).
  - destruct Hb as (? & ? & ? & ? & ? & ?). congruence.
  - destruct Hb as (? & items' & ? & ? & Hwf' & _).
    assert (items' = items) as -> by congruence.
    rewrite (Forall2_well_formed_inj _ _ _ _ Hwf' Hwf) in Ht.
    rewrite Forall_forall in Hret.
    destruct ao as [e|]; [|destruct o as [e|]].
    + destruct Ht as (po & o' & Ht & _). new_events Ht. subst new.
      by specialize (Hret (Event (add_to_assignees (HUMAN_REVIEWER P)) (Some e))
                       ltac:(in_trace)).
    + destruct Ht as (po & o' & Ht & _). new_events Ht. subst new.
      by specialize (Hret (Event (create_issue_comment (handoff_text P)) (Some e))
                       ltac:(in_trace)).
    + destruct Ht as [Ht ->]. new_events Ht. by subst new.
Qed.

(** C2, as amended.  When [json.loads] raises, or a line-comment call
    raises, and the print of the error returns: the loop is abandoned at
    that call, the line comments posted before it stay, the error is
    printed, and the run then makes its one issue-comment call, whose body
    is the whole raw response after the prefix "AI Review Error: ".  The
    print comes first in the [except] clause and nothing protects it: when
    it raises, the clause ends there. *)
Theorem failure_posts_raw_response (raw : str) (commit : Commit)
  (t0 new : trace) (r : result unit) :
  apply_line_comments W P raw commit t0 = (t0 ++ new, r) ->
  Exists (fun ev => failed_parse_or_post ev = true) new ->
  returned is_print new ->
  exists before c e o,
    new = before
          ++ [Event c (Some e); done (print_error e);
              Event (create_issue_comment (lit "AI Review Error: " ++ raw)) o] /\
    ((before = [] /\ c = json_loads (payload raw)) \/
     (exists args a,
        before = done (json_loads (payload raw)) :: posted commit args /\
        c = entry_call commit a)) /\
    List.filter is_issue_comment new
    = [Event (create_issue_comment (lit "AI Review Error: " ++ raw)) o] /\
    r = result_of o.
Proof.
  intros Hrun Hex Hpr.
  apply apply_cases in Hrun as (b & Hb & Ht).
  destruct b as [e|e|args' e|args' a e|args'|args' ao o]; simpl in Hb, Ht.
  - destruct Ht as (po & o & Ht & Hr). new_events Ht. subst new.
    assert (po = None) as -> by (eapply returned_print; [done | in_trace]).
    exists [], (json_loads (payload raw)), e, o. repeat split; [by left | done].
  - exfalso. destruct Ht as (po & o & Ht & _). new_events Ht. subst new.
    apply Exists_cons in Hex as [Hex|Hex]; [by vm_compute in Hex|].
    destruct po; repeat (apply Exists_cons in Hex as [Hex|Hex];
                         [by vm_compute in Hex|]); by apply Exists_nil in Hex.
  - exfalso. destruct Ht as (po & o & Ht & _). new_events Ht. subst new.
    apply Exists_cons in Hex as [Hex|Hex]; [by vm_compute in Hex|].
    apply Exists_app in Hex as [Hex|Hex]; [by apply posted_not_failed in Hex|].
    destruct po; repeat (apply Exists_cons in Hex as [Hex|Hex];
                         [by vm_compute in Hex|]); by apply Exists_nil in Hex.
  - destruct Ht as (po & o & Ht & Hr). new_events Ht. subst new.
    assert (po = None) as -> by (eapply returned_print; [done | in_trace]).
    exists (done (json_loads (payload raw)) :: posted commit args'),
      (entry_call commit a), e, o.
    split; [simpl; by rewrite <- ?app_assoc|]. split; [right; by exists args', a|].
    split; [|done]. simpl.
    by rewrite List.filter_app, filter_issue_posted.
  - exfalso. destruct Ht as [Ht _]. new_events Ht. subst new.
    apply Exists_cons in Hex as [Hex|Hex]; [by vm_compute in Hex|].
    by apply posted_not_failed in Hex.
  - exfalso. destruct ao as [e|]; [|destruct o as [e|]]; simpl in Ht.
    + destruct Ht as (po & o' & Ht & _). new_events Ht. subst new.
      destruct po; simpl in Hex; no_failure Hex.
    + destruct Ht as (po & o' & Ht & _). new_events Ht. subst new.
      destruct po; simpl in Hex; no_failure Hex.
    + destruct Ht as [Ht _]. new_events Ht. subst new.
      simpl in Hex; no_failure Hex.
Qed.

(** C10, as amended.  An exception of the assignment or of the handoff
    comment ends in the same [except] clause: after the line comments, all
    posted, and the call that raised, the error is printed and, when that
    print returns, the raw response is posted as an "AI Review Error"
    comment; the line comments stay. *)
Theorem handoff_failure_posts_raw_response (raw : str) (commit : Commit)
  (t0 new : trace) (r : result unit) (comments : pyobj)
  (items : list pyobj) (args : list (pyobj * pyobj * Z)) :
  occurs READY_FOR_HUMAN_REVIEW raw ->
  W t0 (json_loads (payload raw)) = Ok comments ->
  iter comments = Ok items ->
  Forall2 (well_formed (int_max_str_digits P)) items args ->
  apply_line_comments W P raw commit t0 = (t0 ++ new, r) ->
  returned is_review_comment new ->
  returned is_print new ->
  Exists (failed_handoff P) new ->
  exists failed e o,
    new = done (json_loads (payload raw)) :: posted commit args
          ++ failed
          ++ [done (print_error e);
              Event (create_issue_comment (lit "AI Review Error: " ++ raw)) o] /\
    (failed = [Event (add_to_assignees (HUMAN_REVIEWER P)) (Some e)] \/
     failed = [done (add_to_assignees (HUMAN_REVIEWER P));
               Event (create_issue_comment (handoff_text P)) (Some e)]) /\
    r = result_of o.
Proof.
  intros Hm Hj Hi Hwf Hrun Hret Hpr Hex. apply contains_spec in Hm.
  apply apply_cases in Hrun as (b & Hb & Ht).
  destruct b as [e|e|args' e|args' a e|args'|args' ao o]; simpl in Hb, Ht.
  - congruence.
  - destruct Hb as (? & ? & ?). congruence.
  - destruct Hb as (? & items' & c & ? & ? & _ & Hc & He).
    assert (items' = items) as -> by congruence.
    by eapply well_formed_not_raise in He.
  - destruct Ht as (po & o & Ht & _). new_events Ht. subst new.
    eapply (returned_elem _ _ (Event (entry_call commit a) (Some e))) in Hret;
      [done | in_trace | done].
  - destruct Hb as (? & ? & ? & ? & ? & ?). congruence.
  - destruct Hb as (? & items' & ? & ? & Hwf' & _).
    assert (items' = items) as -> by congruence.
    rewrite (Forall2_well_formed_inj _ _ _ _ Hwf' Hwf) in Ht.
    destruct ao as [e|]; [|destruct o as [e|]]; simpl in Ht.
    + destruct Ht as (po & o' & Ht & Hr). new_events Ht. subst new.
      assert (po = None) as -> by (eapply returned_print; [done | in_trace]).
      eexists [_], e, o'. split; [|split; [by left | done]].
      simpl. by rewrite <- ?app_assoc.
    + destruct Ht as (po & o' & Ht & Hr). new_events Ht. subst new.
      assert (po = None) as -> by (eapply returned_print; [done | in_trace]).
      eexists [_; _], e, o'. split; [|split; [by right | done]].
      simpl. by rewrite <- ?app_assoc.
    + exfalso. destruct Ht as [Ht _]. new_events Ht. subst new.
      apply (Exists_impl _ (fun ev => raised ev = true)) in Hex;
        [|by intros ? [_ ?]].
      apply Exists_cons in Hex as [Hex|Hex]; [done|].
      apply Exists_app in Hex as [Hex|Hex]; [by apply posted_not_raised in Hex|].
      simpl in Hex.
      repeat (apply Exists_cons in Hex as [Hex|Hex]; [done|]).
      by apply Exists_nil in Hex.
Qed.

(** C6.  The prompt sent to the model holds, between its fixed parts and
    after the standards, the diff blob: for each changed file, in the order
    the comparison lists them, the name of the file followed by its patch. *)
Theorem diff_blob_in_file_order (pr : PullRequest) (t0 new : trace)
  (r : result (str * Commit)) (model prompt : str) (o : option exn) :
  get_line_specific_review W pr t0 = (t0 ++ new, r) ->
  Event (generate_content model prompt) o ∈ new ->
  exists standards files,
    W t0 (read_file standards_path) = Ok standards /\
    W (t0 ++ [done (read_file standards_path); done get_commits])
      (compare (base_sha pr) (head_sha pr)) = Ok files /\
    prompt =
      prompt_head ++ standards ++ prompt_middle
      ++ concat (map (fun file => lit "File: " ++ filename file ++ nl
                                  ++ format_opt (patch file) ++ nl ++ nl)
                   files)
      ++ prompt_tail.
Proof.
  intros H Hin. apply review_cases in H. cbv zeta in H.
  destruct H as [(e & _ & H & _) | (standards & Hs & H)].
  { new_events H. subst new. by find_event Hin. }
  destruct H as [(e & _ & H & _) | (commits & _ & H)].
  { new_events H. subst new. by find_event Hin. }
  destruct H as [(_ & H & _) | (latest & _ & H)].
  { new_events H. subst new. by find_event Hin. }
  destruct H as [(e & _ & H & _) | (files & Hf & o' & H & _ & _)].
  { new_events H. subst new. by find_event Hin. }
  new_events H. subst new. exists standards, files.
  split; [done|]. split; [done|].
  find_event Hin. by injection Hin as -> -> ->.
Qed.

(** C7.  The Review Generator returns exactly when its four calls return,
    and what it returns is the text the model answered, as it is, with the
    last commit of the history of the pull request. *)
Theorem review_returns_text_and_latest_commit (pr : PullRequest)
  (t0 t : trace) (text : str) (commit : Commit) :
  get_line_specific_review W pr t0 = (t, Ok (text, commit)) <->
  exists standards commits files,
    let t1 := t0 ++ [done (read_file standards_path)] in
    let t2 := t0 ++ [done (read_file standards_path); done get_commits] in
    let t3 := t0 ++ [done (read_file standards_path); done get_commits;
                     done (compare (base_sha pr) (head_sha pr))] in
    let model_call :=
      generate_content model_name
        (make_prompt standards (concat (map render_file files))) in
    W t0 (read_file standards_path) = Ok standards /\
    W t1 get_commits = Ok commits /\
    last commits = Some commit /\
    W t2 (compare (base_sha pr) (head_sha pr)) = Ok files /\
    W t3 model_call = Ok text /\
    t = t3 ++ [done model_call].
Proof.
  cbv zeta. split.
  - intros H. apply review_cases in H. cbv zeta in H.
    destruct H as [(e & _ & _ & ?) | (standards & Hs & H)]; [done|].
    destruct H as [(e & _ & _ & ?) | (commits & Hc & H)]; [done|].
    destruct H as [(_ & _ & ?) | (latest & Hl & H)]; [done|].
    destruct H as [(e & _ & _ & ?) | (files & Hf & o & -> & -> & Hr)]; [done|].
    destruct (W _ (generate_content _ _)) as [text'|e] eqn:Eg; [|done].
    simpl in Hr. injection Hr as <- <-.
    exists standards, commits, files. repeat split; try done.
    by rewrite <- app_assoc.
  - intros (standards & commits & files & Hs & Hc & Hl & Hf & Hg & ->).
    destruct (get_line_specific_review W pr t0) as [t r] eqn:H.
    apply review_cases in H. cbv zeta in H.
    destruct H as [(e & ? & _) | (standards' & Hs' & H)]; [congruence|].
    assert (standards' = standards) as -> by congruence.
    destruct H as [(e & ? & _) | (commits' & Hc' & H)]; [congruence|].
    assert (commits' = commits) as -> by congruence.
    destruct H as [(? & _) | (latest & Hl' & H)]; [congruence|].
    assert (latest = commit) as -> by congruence.
    destruct H as [(e & ? & _) | (files' & Hf' & o & -> & -> & ->)];
      [congruence|].
    assert (files' = files) as -> by congruence.
    rewrite Hg. simpl. by rewrite <- app_assoc.
Qed.

(** C5.  When the lookup of the pull request raises, the run ends there
    with that exception: the lookup is the last call, and no call to the
    model has been made. *)
Theorem unknown_pull_request_stops_before_model (t : trace)
  (r : result unit) (n : Z) (e : exn) :
  main W P [] = (t, r) ->
  Event (get_pull n) (Some e) ∈ t ->
  r = Raise e /\
  last t = Some (Event (get_pull n) (Some e)) /\
  List.filter is_generate t = [].
Proof.
  intros H Hin. unfold main, bind in H.
  destruct (setup W P []) as [t1 r1] eqn:Es.
  apply setup_cases in Es. cbv zeta in Es. simpl in Es.
  destruct Es as [(e' & _ & -> & ->) | (number & _ & Es)].
  { injection H as <- <-. by find_event Hin. }
  destruct Es as [(e' & -> & ->) | [(e' & -> & ->) | [(e' & -> & ->) |
                 [(e' & -> & ->) | (pr & -> & ->)]]]].
  1-3: injection H as <- <-; by find_event Hin.
  { injection H as <- <-. find_event Hin. by injection Hin as -> ->. }
  exfalso.
  destruct (get_line_specific_review W pr _) as [t2 r2] eqn:Er.
  apply generator_calls in Er as (new2 & -> & Hg).
  rewrite Forall_forall in Hg.
  destruct r2 as [review|e2].
  - apply applier_calls in H as (new3 & -> & Ha).
    rewrite Forall_forall in Ha.
    find_event Hin; [by apply Hg in Hin | by apply Ha in Hin].
  - injection H as <- <-. find_event Hin. by apply Hg in Hin.
Qed.

End Facts.

(** *** The properties on the sample data *)

(** The sample entry is well formed whenever [int] converts its "line". *)
Lemma well_formed_demo (line : pyobj) (n : Z) :
  int 4300 line = Ok n ->
  well_formed 4300 (demo_entry line)
    (PStr (lit "fix this"), PStr (lit "lib/a.dart"), n).
Proof.
  intros H. eexists _, line. split; [reflexivity|]. by repeat split.
Defined.

(** C3 on [raw_one] in the calm world: one entry, one line comment. *)
Lemma line_comments_in_order_witness :
  List.filter is_review_comment trace_one = posted demo_commit [demo_args] /\
  length (List.filter is_review_comment trace_one) = 1%nat.
Proof.
  apply (line_comments_in_order (demo_world raw_one) demo_process raw_one
           demo_commit [] trace_one (Ok tt) (PList [demo_entry (PInt 10)])
           [demo_entry (PInt 10)] [demo_args]).
  - vm_compute. reflexivity.
  - reflexivity.
  - repeat constructor. by apply well_formed_demo.
  - vm_compute. reflexivity.
  - unfold returned. repeat constructor.
Defined.

(** C1 fails as stated: [raw_malformed] contains the marker, yet in the calm
    world the run makes no assignment and posts only the fallback comment. *)
Lemma marker_without_handoff :
  occurs READY_FOR_HUMAN_REVIEW raw_malformed /\
  apply_line_comments (demo_world raw_malformed) demo_process raw_malformed
    demo_commit [] = (trace_malformed, Ok tt) /\
  List.filter is_assignment trace_malformed = [] /\
  List.filter is_issue_comment trace_malformed
  = [done (create_issue_comment (lit "AI Review Error: " ++ raw_malformed))].
Proof.
  split; [|split; [|split]].
  - apply contains_spec. vm_compute. reflexivity.
  - vm_compute. reflexivity.
  - reflexivity.
  - reflexivity.
Qed.

(** C1 as amended, on [raw_one] in the calm world. *)
Lemma handoff_after_success_witness :
  trace_one
  = done (json_loads (payload raw_one)) :: posted demo_commit [demo_args]
    ++ [done (add_to_assignees (HUMAN_REVIEWER demo_process));
        done (create_issue_comment
                (lit "AI Review complete. Reassigning to @"
                 ++ format_opt (HUMAN_REVIEWER demo_process)
                 ++ lit " for final sign-off."))] /\
  Ok tt = Ok tt.
Proof.
  apply (handoff_after_success (demo_world raw_one) demo_process raw_one
           demo_commit [] trace_one (Ok tt) (PList [demo_entry (PInt 10)])
           [demo_entry (PInt 10)] [demo_args]).
  - apply contains_spec. vm_compute. reflexivity.
  - vm_compute. reflexivity.
  - reflexivity.
  - repeat constructor. by apply well_formed_demo.
  - vm_compute. reflexivity.
  - repeat constructor.
Defined.

(** C2 on [raw_malformed] in the calm world: the parse raises. *)
Lemma failure_posts_raw_response_witness :
  exists before c e o,
    trace_malformed
    = before ++ [Event c (Some e); done (print_error e);
                 Event (create_issue_comment
                          (lit "AI Review Error: " ++ raw_malformed)) o] /\
    ((before = [] /\ c = json_loads (payload raw_malformed)) \/
     (exists args a,
        before = done (json_loads (payload raw_malformed))
                 :: posted demo_commit args /\
        c = entry_call demo_commit a)) /\
    List.filter is_issue_comment trace_malformed
    = [Event (create_issue_comment
                (lit "AI Review Error: " ++ raw_malformed)) o] /\
    Ok tt = result_of o.
Proof.
  apply (failure_posts_raw_response (demo_world raw_malformed) demo_process
           raw_malformed demo_commit [] trace_malformed (Ok tt)).
  - vm_compute. reflexivity.
  - apply Exists_cons. left. reflexivity.
  - unfold returned. repeat constructor; discriminate.
Defined.

(** C10 on [raw_one] when the assignment is refused. *)
Lemma handoff_failure_posts_raw_response_witness :
  exists failed e o,
    trace_refused
    = done (json_loads (payload raw_one)) :: posted demo_commit [demo_args]
      ++ failed
      ++ [done (print_error e);
          Event (create_issue_comment (lit "AI Review Error: " ++ raw_one)) o] /\
    (failed = [Event (add_to_assignees (HUMAN_REVIEWER demo_process)) (Some e)] \/
     failed = [done (add_to_assignees (HUMAN_REVIEWER demo_process));
               Event (create_issue_comment (handoff_text demo_process))
                 (Some e)]) /\
    Ok tt = result_of o.
Proof.
  apply (handoff_failure_posts_raw_response no_assignee_world demo_process
           raw_one demo_commit [] trace_refused (Ok tt)
           (PList [demo_entry (PInt 10)]) [demo_entry (PInt 10)] [demo_args]).
  - apply contains_spec. vm_compute. reflexivity.
  - vm_compute. reflexivity.
  - reflexivity.
  - repeat constructor. by apply well_formed_demo.
  - vm_compute. reflexivity.
  - unfold returned. repeat constructor; discriminate.
  - unfold returned. repeat constructor; discriminate.
  - apply Exists_cons. right. apply Exists_cons. right. apply Exists_cons.
    left. split; [left|]; reflexivity.
Defined.

(** C2 fails as stated: with the standard output closed, the parse of
    [raw_malformed] raises, the print of the error raises in turn, and the
    run ends with that exception without any issue comment. *)
Lemma failed_parse_without_fallback_comment :
  apply_line_comments closed_stdout_world demo_process raw_malformed
    demo_commit [] = (trace_malformed_unprinted, Raise (OtherError 32)) /\
  Exists (fun ev => failed_parse_or_post ev = true) trace_malformed_unprinted /\
  List.filter is_issue_comment trace_malformed_unprinted = [].
Proof.
  split; [|split].
  - vm_compute. reflexivity.
  - apply Exists_cons. left. reflexivity.
  - reflexivity.
Qed.

(** C10 fails as stated: with the standard output closed, the one line
    comment of [raw_one] is posted, the assignment is refused, the print of
    the error raises, and no "AI Review Error" comment is posted. *)
Lemma refused_assignment_without_fallback_comment :
  occurs READY_FOR_HUMAN_REVIEW raw_one /\
  apply_line_comments closed_stdout_no_assignee_world demo_process raw_one
    demo_commit [] = (trace_refused_unprinted, Raise (OtherError 32)) /\
  List.filter is_review_comment trace_refused_unprinted
  = posted demo_commit [demo_args] /\
  Exists (failed_handoff demo_process) trace_refused_unprinted /\
  List.filter is_issue_comment trace_refused_unprinted = [].
Proof.
  split; [|split; [|split; [|split]]].
  - apply contains_spec. vm_compute. reflexivity.
  - vm_compute. reflexivity.
  - reflexivity.
  - apply Exists_cons. right. apply Exists_cons. right. apply Exists_cons.
    left. split; [left|]; reflexivity.
  - reflexivity.
Qed.

(** C9 on [raw_line_string] in the calm world: the "line" is the string "10",
    the line comment is posted at line 10. *)
Lemma line_value_is_coerced_witness :
  (exists o rest,
     (apply_line_comments (demo_world raw_line_string) demo_process
        raw_line_string demo_commit []).1
     = [done (json_loads (payload raw_line_string))]
       ++ Event (create_review_comment (PStr (lit "fix this")) demo_commit
                   (PStr (lit "lib/a.dart")) 10) o :: rest) /\
  (forall s, PStr (lit "10") = PStr s -> s <> [] ->
             Forall (fun c => is_digit c = true) s ->
             within_digit_limit 4300 (length s) = true ->
             int 4300 (PStr (lit "10")) = Ok (Json.digits_value s)).
Proof.
  apply (line_value_is_coerced (demo_world raw_line_string) demo_process
           raw_line_string demo_commit []
           [done (json_loads (payload raw_line_string))]
           (PList [demo_entry (PStr (lit "10"))]) []
           []
           [(lit "path", PStr (lit "lib/a.dart"));
            (lit "line", PStr (lit "10"));
            (lit "comment", PStr (lit "fix this"))]
           (PStr (lit "fix this")) (PStr (lit "lib/a.dart"))
           (PStr (lit "10"))).
  - vm_compute. reflexivity.
  - reflexivity.
  - reflexivity.
  - reflexivity.
  - reflexivity.
  - reflexivity.
Defined.

(** C5 in the world where the pull request does not exist. *)
Lemma unknown_pull_request_stops_before_model_witness :
  Raise (OtherError 404) = Raise (OtherError 404) :> result unit /\
  last trace_no_pull = Some (Event (get_pull 42) (Some (OtherError 404))) /\
  List.filter is_generate trace_no_pull = [].
Proof.
  apply (unknown_pull_request_stops_before_model no_pull_world demo_process
           trace_no_pull (Raise (OtherError 404)) 42 (OtherError 404)).
  - vm_compute. reflexivity.
  - unfold trace_no_pull. in_trace.
Defined.

(** C6 in the calm world: two files, the second without a patch. *)
Lemma diff_blob_in_file_order_witness :
  exists standards files,
    demo_world raw_one [] (read_file standards_path) = Ok standards /\
    demo_world raw_one
      ([] ++ [done (read_file standards_path); done get_commits])
      (compare (base_sha demo_pr) (head_sha demo_pr)) = Ok files /\
    demo_prompt =
      prompt_head ++ standards ++ prompt_middle
      ++ concat (map (fun file => lit "File: " ++ filename file ++ nl
                                  ++ format_opt (patch file) ++ nl ++ nl)
                   files)
      ++ prompt_tail.
Proof.
  apply (diff_blob_in_file_order (demo_world raw_one) demo_pr []
           trace_review (Ok (raw_one, demo_commit)) model_name demo_prompt
           None).
  - vm_compute. reflexivity.
  - unfold trace_review. in_trace.
Defined.

(** C7 in the calm world: the generator returns the model's text and the
    second of the two commits. *)
Lemma review_returns_text_and_latest_commit_witness :
  get_line_specific_review (demo_world raw_one) demo_pr []
  = (trace_review, Ok (raw_one, demo_commit)).
Proof.
  apply (review_returns_text_and_latest_commit (demo_world raw_one)
           demo_pr [] trace_review raw_one demo_commit).
  exists (lit "Be kind."), demo_commits, demo_files.
  repeat split; vm_compute; reflexivity.
Defined.

(** C8 on [raw_action_inside], for the occurrence of "ACTION:" in the
    marker line: the payload is cut at the one inside the comment. *)
Lemma payload_cut_at_first_ACTION_witness :
  exists a0 rest,
    a0 `prefix_of` before_last_action /\
    before_first ACTION a0 raw_action_inside /\
    json_str raw_action_inside = Ok (strip a0) /\
    (apply_line_comments (demo_world raw_action_inside) demo_process
       raw_action_inside demo_commit []).1
    = [] ++ Event (json_loads (strip a0))
                  (outcome (demo_world raw_action_inside []
                              (json_loads (strip a0)))) :: rest.
Proof.
  apply (payload_cut_at_first_ACTION (demo_world raw_action_inside)
           demo_process raw_action_inside before_last_action
           (lit " READY_FOR_HUMAN_REVIEW") demo_commit []).
  vm_compute. reflexivity.
Defined.

(** The testable properties of the specification, on the sample data. *)

Example no_finding_hands_off :
  apply_line_comments (demo_world raw_empty) demo_process raw_empty
    demo_commit []
  = ([done (json_loads (lit "[]"));
      done (add_to_assignees (Some (lit "octocat")));
      done (create_issue_comment octocat_handoff)], Ok tt).
Proof. vm_compute. reflexivity. Qed.

Example one_finding_is_posted_then_handed_off :
  apply_line_comments (demo_world raw_one) demo_process raw_one demo_commit []
  = (trace_one, Ok tt).
Proof. vm_compute. reflexivity. Qed.

Example malformed_json_is_posted_raw :
  apply_line_comments (demo_world raw_malformed) demo_process raw_malformed
    demo_commit []
  = (trace_malformed, Ok tt).
Proof. vm_compute. reflexivity. Qed.

Example refused_assignment_is_posted_raw :
  apply_line_comments no_assignee_world demo_process raw_one demo_commit []
  = (trace_refused, Ok tt).
Proof. vm_compute. reflexivity. Qed.

(** A "line" that is null: [int] raises TypeError before any call is made
    for the entry. *)
Example null_line_is_posted_raw :
  apply_line_comments (demo_world raw_line_null) demo_process raw_line_null
    demo_commit []
  = ([done (json_loads (lit "[" ++ entry_text (lit "null") ++ lit "]"));
      done (print_error TypeError);
      done (create_issue_comment (lit "AI Review Error: " ++ raw_line_null))],
     Ok tt).
Proof. vm_compute. reflexivity. Qed.

(** "ACTION:" inside a comment: the payload stops in the middle of the
    string, and does not parse. *)
Example action_inside_comment_cuts_payload :
  payload raw_action_inside = before_first_action /\
  apply_line_comments (demo_world raw_action_inside) demo_process
    raw_action_inside demo_commit []
  = ([Event (json_loads before_first_action) (Some JSONDecodeError);
      done (print_error JSONDecodeError);
      done (create_issue_comment
              (lit "AI Review Error: " ++ raw_action_inside))], Ok tt).
Proof. split; vm_compute; reflexivity. Qed.

(** An empty JSON object is iterated like an empty list. *)
Example empty_object_hands_off :
  apply_line_comments (demo_world raw_one) demo_process
    (lit "{}" ++ marker_line) demo_commit []
  = ([done (json_loads (lit "{}"));
      done (add_to_assignees (Some (lit "octocat")));
      done (create_issue_comment octocat_handoff)], Ok tt).
Proof. vm_compute. reflexivity. Qed.

(** The whole script in the calm world, and when the pull request does not
    exist. *)
Example script_in_calm_world :
  main (demo_world raw_one) demo_process []
  = ([done (genai_configure None); done (Github None);
      done (get_repo repo_name); done (get_pull 42)]
     ++ trace_review ++ trace_one, Ok tt).
Proof. vm_compute. reflexivity. Qed.

Example script_without_pull_request :
  main no_pull_world demo_process []
  = (trace_no_pull, Raise (OtherError 404)).
Proof. vm_compute. reflexivity. Qed.

End ReviewAgentFacts.

(** ** The script: failures, edge cases and the whole run *)

Module ReviewAgentMore.
Import PyStr PyObj ReviewAgent ReviewAgentCases PyStrFacts ReviewAgentFacts.

Lemma filter_none {A} (f : A -> bool) (l : list A) :
  Forall (fun x => f x = false) l -> List.filter f l = [].
Proof. induction 1 as [|x l Hx _ IH]; simpl; [done|]. by rewrite Hx. Qed.

Lemma posted_are_reviews (commit : Commit) (args : list (pyobj * pyobj * Z)) :
  Forall (fun ev => exists a, ev = done (entry_call commit a))
    (posted commit args).
Proof.
  unfold posted. induction args as [|a args IH]; simpl; constructor; eauto.
Qed.

(** A property of events that holds of every posted line comment holds of
    the trace of the posted ones. *)
Lemma posted_all (Q : event -> Prop) (commit : Commit)
  (args : list (pyobj * pyobj * Z)) :
  (forall a, Q (done (entry_call commit a))) -> Forall Q (posted commit args).
Proof.
  intros HQ. eapply Forall_impl; [apply posted_are_reviews|].
  by intros ev [a ->].
Qed.

(** "ACTION:" has no border: when it does not occur in [json], its first
    occurrence in [json ++ "ACTION:" ++ rest] is the one written out. *)
Lemma first_ACTION_unique (a json rest : str) :
  before_first ACTION a (json ++ ACTION ++ rest) ->
  ~ occurs ACTION json ->
  a = json.
Proof.
  intros Ha Hno.
  pose proof (before_first_prefix _ _ _ _ _ Ha eq_refl) as [u ->].
  destruct Ha as [[b Hb] _].
  rewrite <- !app_assoc in Hb. apply app_inv_head in Hb.
  change ACTION with [65; 67; 84; 73; 79; 78; 58] in *.
  destruct u as [|u1 [|u2 [|u3 [|u4 [|u5 [|u6 [|u7 u]]]]]]].
  - by rewrite app_nil_r.
  - simpl in Hb. congruence.
  - simpl in Hb. congruence.
  - simpl in Hb. congruence.
  - simpl in Hb. congruence.
  - simpl in Hb. congruence.
  - simpl in Hb. congruence.
  - exfalso. apply Hno. exists a, u. simpl in Hb.
    injection Hb as -> -> -> -> -> -> -> _. done.
Qed.

(** Properties of every event of a trace that is written out. *)
Ltac events_all :=
  unfold fallback_events, handoff_events;
  repeat match goal with
         | |- Forall _ [] => apply Forall_nil_2
         | |- Forall _ (_ :: _) => apply Forall_cons_2
         | |- Forall _ (_ ++ _) => apply Forall_app; split
         | |- Forall _ (posted _ _) => apply posted_all; intros ?
         end;
  try done.


Section More.
Context (W : World) (P : Process).

(** X1.  The applier raises only out of its [except] clause: a run that
    ends with an exception ends with the print of the caught error raising,
    or with the print returning and the fallback issue comment raising.
    Whatever raises inside the [try] block is caught. *)
Theorem except_clause_is_the_only_way_out (raw : str) (commit : Commit)
  (t0 new : trace) (e : exn) :
  apply_line_comments W P raw commit t0 = (t0 ++ new, Raise e) ->
  exists before e0,
    new = before ++ [Event (print_error e0) (Some e)] \/
    new = before ++ [done (print_error e0);
                     Event (create_issue_comment (lit "AI Review Error: " ++ raw))
                       (Some e)].
Proof.
  intros H. apply apply_cases in H as (b & _ & Ht).
  destruct (body_raised b) as [e0|]; [|by destruct Ht].
  destruct Ht as (po & o & Ht & Hr). apply app_inv_head in Ht.
  exists (body_events P raw commit b), e0.
  destruct po as [e1|]; simpl in Hr.
  - injection Hr as ->. by left.
  - destruct o as [e1|]; [|done]. injection Hr as ->. by right.
Qed.


(** X2.  Without the marker in the raw response the applier never assigns
    anybody, and an issue comment, if one is posted, is the fallback comment:
    the raw response after "AI Review Error: ". *)
Theorem no_marker_no_handoff (raw : str) (commit : Commit) (t0 new : trace)
  (r : result unit) :
  ~ occurs READY_FOR_HUMAN_REVIEW raw ->
  apply_line_comments W P raw commit t0 = (t0 ++ new, r) ->
  List.filter is_assignment new = [] /\
  Forall (fun ev => is_issue_comment ev = true ->
                    ev_call ev
                    = create_issue_comment (lit "AI Review Error: " ++ raw))
    new.
Proof.
  intros Hm H. apply apply_cases in H as (b & Hb & Ht).
  assert (Hnew : exists tail,
             new = body_events P raw commit b ++ tail /\
             (tail = [] \/ exists e po o, tail = fallback_events raw e po o)).
  { destruct (body_raised b) as [e|].
    - destruct Ht as (po & o & Ht & _). apply app_inv_head in Ht. eauto 8.
    - destruct Ht as [Ht _]. apply app_inv_head in Ht.
      exists []. by rewrite app_nil_r; auto. }
  destruct Hnew as (tail & -> & Htail).
  assert (Hb' : forall args ao o, b <> HandedOff args ao o).
  { intros args ao o ->. simpl in Hb. destruct Hb as (? & ? & _ & _ & _ & Hc).
    by apply contains_spec in Hc. }
  split.
  - apply filter_none, Forall_app. split.
    + destruct b; simpl; events_all; by edestruct Hb'.
    + destruct Htail as [->|(e & po & o & ->)]; [done|].
      destruct po; events_all.
  - apply Forall_app. split.
    + destruct b; simpl; events_all; by edestruct Hb'.
    + destruct Htail as [->|(e & po & o & ->)]; [done|].
      destruct po; events_all.
Qed.


(** X3.  The calls of any run of the applier: one [json.loads] call first,
    then line-comment calls only, then at most four calls of the handoff and
    of the [except] clause, among them at most one assignment, at most one
    print and at most two issue comments.  No line comment comes after an
    assignment, a print or an issue comment. *)
Theorem applier_call_budget (raw : str) (commit : Commit) (t0 : trace) :
  exists o reviews rest r,
    apply_line_comments W P raw commit t0
    = (t0 ++ Event (json_loads (payload raw)) o :: reviews ++ rest, r) /\
    Forall (fun ev => is_review_comment ev = true) reviews /\
    Forall (fun ev => after_loop_call (ev_call ev) = true) rest /\
    (length rest <= 4)%nat /\
    (length (List.filter is_assignment rest) <= 1)%nat /\
    (length (List.filter is_print rest) <= 1)%nat /\
    (length (List.filter is_issue_comment rest) <= 2)%nat.
Proof.
  destruct (apply_line_comments W P raw commit t0) as [t r] eqn:H.
  apply apply_cases in H as (b & _ & Ht).
  assert (Hrest : forall rest : trace,
             (exists ao o, rest = handoff_events P ao o) \/
             (exists e po o, rest = fallback_events raw e po o) \/
             (exists ao o e po o',
                 rest = handoff_events P ao o ++ fallback_events raw e po o') ->
             Forall (fun ev => after_loop_call (ev_call ev) = true) rest /\
             (length rest <= 4)%nat /\
             (length (List.filter is_assignment rest) <= 1)%nat /\
             (length (List.filter is_print rest) <= 1)%nat /\
             (length (List.filter is_issue_comment rest) <= 2)%nat).
  { intros rest [(ao & o & ->)|[(e & po & o & ->)|(ao & o & e & po & o' & ->)]].
    - destruct ao; simpl; repeat split; events_all; lia.
    - destruct po; simpl; repeat split; events_all; lia.
    - destruct ao, po; simpl; repeat split; events_all; lia. }
  destruct b as [e|e|args e|args a e|args|args ao o]; simpl in Ht.
  - destruct Ht as (po & o & -> & ->).
    eexists (Some e), [], _, _. split; [reflexivity|].
    split; [done|]. apply Hrest. eauto 8.
  - destruct Ht as (po & o & -> & ->).
    eexists None, [], _, _. split; [reflexivity|].
    split; [done|]. apply Hrest. eauto 8.
  - destruct Ht as (po & o & -> & ->).
    eexists None, (posted commit args), _, _. split; [reflexivity|].
    split; [events_all|]. apply Hrest. eauto 8.
  - destruct Ht as (po & o & -> & ->).
    eexists None, (posted commit args ++ [Event (entry_call commit a) (Some e)]),
      _, _.
    split; [by rewrite <- !app_assoc|].
    split; [events_all|]. apply Hrest. eauto 8.
  - destruct Ht as [-> ->].
    eexists None, (posted commit args), [], _.
    split; [by rewrite app_nil_r|]. split; [events_all|].
    simpl. repeat split; events_all; lia.
  - destruct (match ao with Some _ => ao | None => o end) as [e|].
    + destruct Ht as (po & o' & -> & ->).
      eexists None, (posted commit args), _, _.
      split; [by rewrite <- !app_assoc|].
      split; [events_all|]. apply Hrest. eauto 12.
    + destruct Ht as [-> ->].
      eexists None, (posted commit args), _, _. split; [reflexivity|].
      split; [events_all|]. apply Hrest. eauto 8.
Qed.

(** X4.  A payload that parses to null, a boolean or a number cannot be
    iterated: the [for] statement raises TypeError, no line comment is
    attempted and the run continues in the [except] clause, marker or not. *)
Theorem scalar_payload_is_not_iterated (raw : str) (commit : Commit)
  (t0 : trace) (comments : pyobj) :
  W t0 (json_loads (payload raw)) = Ok comments ->
  is_scalar comments = true ->
  apply_line_comments W P raw commit t0
  = fallback W raw TypeError (t0 ++ [done (json_loads (payload raw))]).
Proof.
  intros Hj Hs. rewrite apply_run. cbn zeta. rewrite Hj. cbn [outcome].
  by destruct comments.
Qed.

(** X5.  An element of the parsed sequence that is not an object cannot be
    subscripted by "comment": when the loop reaches it, TypeError is raised,
    no call is made for it or for the elements after it, and the run
    continues in the [except] clause; the line comments posted before it
    stay in the trace. *)
Theorem entry_that_is_no_object_raises_TypeError (raw : str) (commit : Commit)
  (t0 t2 : trace) (comments : pyobj) (before after : list pyobj) (c : pyobj) :
  W t0 (json_loads (payload raw)) = Ok comments ->
  iter comments = Ok (before ++ c :: after) ->
  for_each (post_comment W P commit) before
    (t0 ++ [done (json_loads (payload raw))]) = (t2, Ok tt) ->
  (forall d, c <> PDict d) ->
  apply_line_comments W P raw commit t0 = fallback W raw TypeError t2.
Proof.
  intros Hj Hi Hb Hc.
  rewrite (apply_after_loop _ _ _ _ _ _ _ Hj Hi), for_each_app, Hb.
  cbn [for_each]. unfold bind. rewrite post_comment_run.
  destruct c; try done. by edestruct Hc.
Qed.

(** X6.  A payload that is a single object with at least one key, or a
    string of at least one character, is iterated over its keys or its
    characters: the first element is a string, subscripting it raises
    TypeError, and no line comment is posted at all. *)
Theorem bare_object_or_string_raises_TypeError (raw : str) (commit : Commit)
  (t0 : trace) (comments : pyobj) :
  W t0 (json_loads (payload raw)) = Ok comments ->
  (exists k v d, comments = PDict ((k, v) :: d)) \/
  (exists c s, comments = PStr (c :: s)) ->
  apply_line_comments W P raw commit t0
  = fallback W raw TypeError (t0 ++ [done (json_loads (payload raw))]).
Proof.
  intros Hj Hc.
  assert (Hi : exists k rest, iter comments = Ok (PStr k :: rest)).
  { destruct Hc as [(k & v & d & ->)|(c & s & ->)]; simpl; eauto. }
  destruct Hi as (k & rest & Hi).
  rewrite (apply_after_loop _ _ _ _ _ _ _ Hj Hi).
  cbn [for_each]. unfold bind. by rewrite post_comment_run.
Qed.

(** X7.  An object that lacks one of the three keys raises KeyError for the
    first one missing, in the order in which the call evaluates its
    arguments: "comment", then "path", then "line".  No call is made for
    the object, and the run continues in the [except] clause. *)
Theorem missing_key_raises_KeyError (raw : str) (commit : Commit)
  (t0 t2 : trace) (comments : pyobj) (before after : list pyobj)
  (d : list (str * pyobj)) (k : str) :
  W t0 (json_loads (payload raw)) = Ok comments ->
  iter comments = Ok (before ++ PDict d :: after) ->
  for_each (post_comment W P commit) before
    (t0 ++ [done (json_loads (payload raw))]) = (t2, Ok tt) ->
  first_missing d = Some k ->
  apply_line_comments W P raw commit t0 = fallback W raw (KeyError k) t2.
Proof.
  intros Hj Hi Hb Hk.
  rewrite (apply_after_loop _ _ _ _ _ _ _ Hj Hi), for_each_app, Hb.
  cbn [for_each]. unfold bind. rewrite post_comment_run.
  unfold first_missing in Hk. unfold entry_args, getitem.
  destruct (dict_get d (lit "comment")); [|by injection Hk as <-].
  destruct (dict_get d (lit "path")); [|by injection Hk as <-].
  destruct (dict_get d (lit "line")); [done|by injection Hk as <-].
Qed.

(** X8.  In every run whose payload parsed to something iterable, failed or
    not, the line-comment calls of the run are: one returned call for each
    of the first n elements of the parsed sequence, in the order of the
    sequence, each with the element's comment, path and converted line and
    on the commit the applier was given; then possibly one call that raised,
    for the element that follows them; and no other.  So a call that raises
    is the last line-comment call of the run. *)
Theorem line_comments_follow_the_entries (raw : str) (commit : Commit)
  (t0 new : trace) (r : result unit) (comments : pyobj) (items : list pyobj) :
  W t0 (json_loads (payload raw)) = Ok comments ->
  iter comments = Ok items ->
  apply_line_comments W P raw commit t0 = (t0 ++ new, r) ->
  exists args tail,
    List.filter is_review_comment new = posted commit args ++ tail /\
    Forall2 (well_formed (int_max_str_digits P)) (take (length args) items)
      args /\
    (length args <= length items)%nat /\
    (tail = [] \/
     exists c a e,
       items !! length args = Some c /\
       well_formed (int_max_str_digits P) c a /\
       tail = [Event (entry_call commit a) (Some e)]).
Proof.
  intros Hj Hi H.
  cut (exists args tail,
          List.filter is_review_comment new = posted commit args ++ tail /\
          Forall2 (well_formed (int_max_str_digits P))
            (take (length args) items) args /\
          (tail = [] \/
           exists c a e,
             items !! length args = Some c /\
             well_formed (int_max_str_digits P) c a /\
             tail = [Event (entry_call commit a) (Some e)])).
  { intros (args & tail & Hev & Hwf & Htail). exists args, tail.
    repeat split; [done|done| |done].
    apply Forall2_length in Hwf. rewrite length_take in Hwf. lia. }
  assert (Hfb : forall e po o,
             List.filter is_review_comment (fallback_events raw e po o) = []).
  { intros e po o. by destruct po. }
  assert (Hho : forall ao o,
             List.filter is_review_comment (handoff_events P ao o) = []).
  { intros ao o. by destruct ao. }
  apply apply_cases in H as (b & Hb & Ht).
  destruct b as [e|e|args e|args a e|args|args ao o]; simpl in Hb, Ht.
  - congruence.
  - destruct Hb as (? & ? & ?). congruence.
  - destruct Hb as (? & items' & c & ? & ? & Hwf & _).
    assert (items' = items) as -> by congruence.
    destruct Ht as (po & o & Ht & _). apply app_inv_head in Ht. subst new.
    exists args, []. repeat split; [|done|by left].
    cbn [List.filter is_review_comment ev_call done].
    by rewrite List.filter_app, Hfb, filter_review_posted.
  - destruct Hb as (? & items' & c & ? & ? & Hwf & Hc & Ha & _).
    assert (items' = items) as -> by congruence.
    destruct Ht as (po & o & Ht & _). apply app_inv_head in Ht. subst new.
    exists args, [Event (entry_call commit a) (Some e)].
    repeat split; [|done|right; by exists c, a, e].
    cbn [List.filter is_review_comment ev_call done].
    by rewrite !List.filter_app, Hfb, app_nil_r, filter_review_posted.
  - destruct Hb as (? & items' & ? & ? & Hwf & _).
    assert (items' = items) as -> by congruence.
    destruct Ht as [Ht _]. apply app_inv_head in Ht. subst new.
    exists args, []. repeat split; [| |by left].
    + cbn [List.filter is_review_comment ev_call done].
      by rewrite filter_review_posted, app_nil_r.
    + rewrite <- (Forall2_length _ _ _ Hwf). by rewrite firstn_all.
  - destruct Hb as (? & items' & ? & ? & Hwf & _).
    assert (items' = items) as -> by congruence.
    assert (Hnew : exists rest,
               new = (done (json_loads (payload raw))
                      :: posted commit args ++ handoff_events P ao o) ++ rest /\
               List.filter is_review_comment rest = []).
    { destruct (match ao with Some _ => ao | None => o end).
      - destruct Ht as (po & o' & Ht & _). apply app_inv_head in Ht. eauto.
      - destruct Ht as [Ht _]. apply app_inv_head in Ht.
        exists []. by rewrite app_nil_r. }
    destruct Hnew as (rest & -> & Hrest).
    exists args, []. repeat split; [| |by left].
    + rewrite List.filter_app, Hrest, app_nil_r.
      cbn [List.filter is_review_comment ev_call done].
      by rewrite List.filter_app, Hho, filter_review_posted.
    + rewrite <- (Forall2_length _ _ _ Hwf). by rewrite firstn_all.
Qed.


(** X10.  A pull request without commits: [reversed[0]] raises IndexError
    right after the history was fetched; the comparison is not requested and
    the model is not called. *)
Theorem empty_history_raises_IndexError (pr : PullRequest) (t0 : trace)
  (standards : str) :
  W t0 (read_file standards_path) = Ok standards ->
  W (t0 ++ [done (read_file standards_path)]) get_commits = Ok [] ->
  get_line_specific_review W pr t0
  = (t0 ++ [done (read_file standards_path); done get_commits],
     Raise IndexError).
Proof.
  intros Hr Hc.
  destruct (get_line_specific_review W pr t0) as [t r] eqn:H.
  apply review_cases in H. cbn zeta in H.
  destruct H as [(e & ? & _)|(? & _ & H)]; [congruence|].
  destruct H as [(e & ? & _)|(commits & Hc' & H)]; [congruence|].
  assert (commits = []) as -> by congruence.
  destruct H as [(_ & -> & ->)|(latest & ? & _)]; done.
Qed.

(** X11.  The script makes no call at all exactly when [int(sys.argv[1])]
    raises, that is when the argument is missing or is not an integer
    literal; the script then ends with that exception. *)
Theorem no_call_iff_bad_argument (t0 : trace) (r : result unit) :
  main W P t0 = (t0, r) <-> exists e, PR_NUMBER P = Raise e /\ r = Raise e.
Proof.
  split.
  - unfold main, bind. intros H.
    destruct (setup W P t0) as [t1 r1] eqn:Hs.
    pose proof Hs as Hs'. apply setup_cases in Hs'. cbn zeta in Hs'.
    destruct Hs' as [(e & He & -> & ->)|(number & _ & Hs')].
    { exists e. split; [done|]. congruence. }
    exfalso.
    assert (Hgrow : exists ev rest, t1 = t0 ++ ev :: rest).
    { destruct Hs' as [(e & -> & _)|[(e & -> & _)|[(e & -> & _)
                      |[(e & -> & _)|(pr & -> & _)]]]]; eauto. }
    destruct Hgrow as (ev & rest & ->).
    assert (Hend : exists more, t0 = (t0 ++ ev :: rest) ++ more).
    { destruct r1 as [pr|e]; [|injection H as H _; exists []; by rewrite app_nil_r].
      destruct (get_line_specific_review W pr (t0 ++ ev :: rest))
        as [t2 r2] eqn:Hg.
      apply generator_calls in Hg as (new2 & -> & _).
      destruct r2 as [review|e];
        [|injection H as H _; exists new2; by rewrite H].
      apply applier_calls in H as (new3 & H & _).
      exists (new2 ++ new3). by rewrite app_assoc. }
    destruct Hend as (more & Hend). apply (f_equal length) in Hend.
    rewrite !length_app in Hend. cbn [length] in Hend. lia.
  - intros (e & He & ->). unfold main, bind, setup, bind, lift.
    by rewrite He.
Qed.

(** X12.  The trace of the whole script is a segment of set-up calls, then
    a segment of generator calls, then a segment of applier calls.  The
    generator starts only when the four set-up calls returned, and the
    applier starts only when the model answered: the generator segment then
    ends with the returned [generate_content] call.  So nothing is parsed,
    posted or assigned unless the model gave a response. *)
Theorem script_runs_setup_generator_applier (t : trace) (r : result unit) :
  main W P [] = (t, r) ->
  exists s g a,
    t = s ++ g ++ a /\
    Forall (fun ev => setup_call (ev_call ev) = true) s /\
    Forall (fun ev => generator_call (ev_call ev) = true) g /\
    Forall (fun ev => applier_call (ev_call ev) = true) a /\
    (g <> [] -> length s = 4%nat /\ Forall (fun ev => ev_raised ev = None) s) /\
    (a <> [] -> exists before model prompt,
                  g = before ++ [done (generate_content model prompt)]).
Proof.
  unfold main, bind. intros H.
  destruct (setup W P []) as [t1 r1] eqn:Hs.
  apply setup_cases in Hs. cbn zeta in Hs.
  assert (Hs' : Forall (fun ev => setup_call (ev_call ev) = true) t1 /\
                match r1 with
                | Ok _ => length t1 = 4%nat /\
                          Forall (fun ev => ev_raised ev = None) t1
                | Raise _ => True
                end).
  { destruct Hs as [(e & _ & -> & ->)|(number & _ & Hs)]; [done|].
    destruct Hs as [(e & -> & ->)|[(e & -> & ->)|[(e & -> & ->)
                   |[(e & -> & ->)|(pr & -> & ->)]]]];
      simpl; repeat split; events_all. }
  destruct Hs' as [Hcalls Hok].
  destruct r1 as [pr|e].
  2:{ injection H as <- _. exists t1, [], []. rewrite !app_nil_r.
      repeat split; done. }
  destruct (get_line_specific_review W pr t1) as [t2 r2] eqn:Hg.
  pose proof Hg as Hg'. apply generator_calls in Hg' as (g & -> & Hgc).
  destruct r2 as [review|e].
  2:{ injection H as <- _. exists t1, g, []. rewrite !app_nil_r.
      repeat split; try done; apply Hok. }
  apply applier_calls in H as (a & -> & Hac).
  exists t1, g, a. rewrite <- app_assoc. repeat split; try done; try apply Hok.
  intros _. apply review_cases in Hg. cbn zeta in Hg.
  destruct Hg as [(e & _ & _ & ?)|(standards & _ & Hg)]; [done|].
  destruct Hg as [(e & _ & _ & ?)|(commits & _ & Hg)]; [done|].
  destruct Hg as [(_ & _ & ?)|(latest & _ & Hg)]; [done|].
  destruct Hg as [(e & _ & _ & ?)|(files & _ & o & Ht & Ho & Hr)]; [done|].
  apply app_inv_head in Ht. subst g.
  destruct (W _ (generate_content _ _)) as [text|e]; [|done].
  subst o. by eexists [_; _; _], _, _.
Qed.

(** X13.  Every line-comment call of the whole script, whatever its
    outcome, is made on the last commit of the history that the
    [get_commits] call of the same run returned. *)
Theorem line_comments_are_on_the_latest_commit (t : trace) (r : result unit)
  (body path : pyobj) (commit : Commit) (line : Z) (o : option exn) :
  main W P [] = (t, r) ->
  Event (create_review_comment body commit path line) o ∈ t ->
  exists before commits,
    before ++ [done get_commits] `prefix_of` t /\
    W before get_commits = Ok commits /\
    last commits = Some commit.
Proof.
  unfold main, bind. intros H Hin.
  destruct (setup W P []) as [t1 r1] eqn:Hs.
  apply setup_cases in Hs. cbn zeta in Hs.
  assert (Hs' : Forall (fun ev => is_review_comment ev = false) t1).
  { destruct Hs as [(e & _ & -> & ->)|(number & _ & Hs)]; [done|].
    destruct Hs as [(e & -> & ->)|[(e & -> & ->)|[(e & -> & ->)
                   |[(e & -> & ->)|(pr & -> & ->)]]]];
      simpl; events_all. }
  assert (Hno : forall l, Forall (fun ev => is_review_comment ev = false) l ->
                          Event (create_review_comment body commit path line) o
                          ∉ l).
  { intros l Hl Hel. rewrite Forall_forall in Hl. by apply Hl in Hel. }
  destruct r1 as [pr|e]; [|injection H as <- _; by apply Hno in Hin].
  destruct (get_line_specific_review W pr t1) as [t2 r2] eqn:Hg.
  pose proof Hg as Hg'. apply generator_calls in Hg' as (g & -> & Hgc).
  assert (Hg' : Forall (fun ev => is_review_comment ev = false) (t1 ++ g)).
  { apply Forall_app. split; [done|]. eapply Forall_impl; [exact Hgc|].
    intros [c ?]. unfold is_review_comment. simpl. by destruct c. }
  destruct r2 as [[text latest]|e]; [|injection H as <- _; by apply Hno in Hin].
  cbn [fst snd] in H.
  apply apply_cases in H as (b & _ & Ht).
  assert (Hnew : exists tail,
             t = (t1 ++ g) ++ body_events P text latest b ++ tail /\
             (tail = [] \/ exists e po o, tail = fallback_events text e po o)).
  { destruct (body_raised b) as [e|].
    - destruct Ht as (po & o' & -> & _). eauto 8.
    - destruct Ht as [-> _]. exists []. by rewrite app_nil_r; auto. }
  destruct Hnew as (tail & -> & Htail).
  assert (Hc : commit = latest).
  { rewrite !elem_of_app in Hin.
    destruct Hin as [[Hin|Hin]|[Hin|Hin]].
    - by apply Hno in Hin; [|by apply Forall_app in Hg' as [? _]].
    - by apply Hno in Hin; [|by apply Forall_app in Hg' as [_ ?]].
    - assert (Hp : forall args,
                 Event (create_review_comment body commit path line) o
                 ∈ posted latest args -> commit = latest).
      { intros args Hp. unfold posted in Hp.
        apply list_elem_of_fmap in Hp as (a & Ha & _).
        unfold done, entry_call in Ha. congruence. }
      destruct b as [e|e|args e|args a e|args|args ao o']; simpl in Hin;
        unfold done in Hin.
      + apply list_elem_of_singleton in Hin. congruence.
      + apply list_elem_of_singleton in Hin. congruence.
      + apply elem_of_cons in Hin as [Hin|Hin]; [congruence|eauto].
      + apply elem_of_cons in Hin as [Hin|Hin]; [congruence|].
        apply elem_of_app in Hin as [Hin|Hin]; [eauto|].
        apply list_elem_of_singleton in Hin. unfold entry_call in Hin.
        congruence.
      + apply elem_of_cons in Hin as [Hin|Hin]; [congruence|eauto].
      + apply elem_of_cons in Hin as [Hin|Hin]; [congruence|].
        apply elem_of_app in Hin as [Hin|Hin]; [eauto|].
        exfalso. revert Hin. apply Hno. destruct ao; events_all.
    - exfalso. revert Hin. apply Hno.
      destruct Htail as [->|(e & po & o' & ->)]; [done|].
      destruct po; events_all. }
  subst latest.
  apply review_cases in Hg. cbn zeta in Hg.
  destruct Hg as [(e & _ & _ & ?)|(standards & _ & Hg)]; [done|].
  destruct Hg as [(e & _ & _ & ?)|(commits & Hc & Hg)]; [done|].
  destruct Hg as [(_ & _ & ?)|(latest & Hl & Hg)]; [done|].
  destruct Hg as [(e & _ & _ & ?)|(files & _ & o' & Hg & _ & Hr)]; [done|].
  apply app_inv_head in Hg. subst g.
  destruct (W _ (generate_content _ _)) as [text'|e]; [|done].
  injection Hr as _ <-.
  exists (t1 ++ [done (read_file standards_path)]), commits.
  repeat split; [|done|done].
  eexists ([_; _] ++ _). by rewrite <- !app_assoc.
Qed.


(** X14.  The payload handed to [json.loads] never contains "ACTION:". *)
Theorem payload_has_no_ACTION (raw : str) : ~ occurs ACTION (payload raw).
Proof.
  intros (x & y & Hxy).
  destruct (payload_spec raw) as (a & Hp & Ha).
  destruct (strip_spec a) as (l & r & Hs & _).
  rewrite <- Hp, Hxy in Hs.
  assert (Hocc : a = (l ++ x) ++ ACTION ++ (y ++ r)).
  { rewrite Hs. by rewrite <- !app_assoc. }
  destruct Ha as [[[b Hb] Hmin]|[Hno ->]].
  - specialize (Hmin (l ++ x) (y ++ r ++ ACTION ++ b)).
    rewrite Hocc, !length_app in Hmin.
    assert (length ACTION = 7%nat) as Hlen by reflexivity.
    rewrite Hlen in Hmin.
    cut (7 + length (l ++ x) <= length (l ++ x))%nat; [lia|].
    rewrite length_app. etrans; [|apply Hmin]; [lia|].
    rewrite Hb, Hocc. by rewrite <- !app_assoc.
  - apply Hno. by eexists _, _.
Qed.

(** X15.  For a response of the instructed shape, a text without "ACTION:"
    followed by "ACTION:" and anything, the payload is that text with the
    white space at both ends removed. *)
Theorem payload_of_instructed_response (json rest : str) :
  ~ occurs ACTION json ->
  payload (json ++ ACTION ++ rest) = strip json.
Proof.
  intros Hno.
  destruct (payload_spec (json ++ ACTION ++ rest)) as (a & -> & Ha).
  f_equal.
  destruct Ha as [Ha|[Hocc _]]; [|destruct Hocc; by eexists _, _].
  by apply (first_ACTION_unique _ json rest).
Qed.

(** X16.  A response with nothing but white space before "ACTION:" gives
    [json.loads] the empty string as its payload. *)
Theorem nothing_before_ACTION_gives_empty_payload (ws rest : str)
  (commit : Commit) (t0 : trace) :
  Forall (fun c => isspace c = true) ws ->
  payload (ws ++ ACTION ++ rest) = [] /\
  exists o more,
    (apply_line_comments W P (ws ++ ACTION ++ rest) commit t0).1
    = t0 ++ Event (json_loads []) o :: more.
Proof.
  intros Hws.
  assert (Hp : payload (ws ++ ACTION ++ rest) = []).
  { destruct (payload_spec (ws ++ ACTION ++ rest)) as (a & -> & Ha).
    assert (Hno : ~ occurs ACTION ws).
    { intros (x & y & ->). apply Forall_app in Hws as [_ Hws].
      apply Forall_app in Hws as [Hws _]. by apply Forall_cons_1 in Hws as [? _]. }
    destruct Ha as [Ha|[Hocc _]]; [|destruct Hocc; by eexists _, _].
    apply (first_ACTION_unique _ ws rest) in Ha as ->; [|done].
    destruct (strip_spec ws) as (l & r & Hs & _ & _ & Hhead & _).
    destruct (strip ws) as [|c s]; [done|].
    specialize (Hhead c eq_refl). rewrite Hs in Hws.
    apply Forall_app in Hws as [_ Hws]. apply Forall_app in Hws as [Hws _].
    apply Forall_cons_1 in Hws as [Hc _]. congruence. }
  split; [done|].
  destruct (apply_starts W P (ws ++ ACTION ++ rest) commit t0) as [more Hm].
  rewrite Hp in Hm. eauto.
Qed.

(** X17.  When the variable HUMAN_REVIEWER is not set, every assignment of
    a run is [add_to_assignees(None)], and the handoff comment is addressed
    to "@None"; the applier does not test the variable. *)
Theorem unset_reviewer_is_assigned_None (raw : str) (commit : Commit)
  (t0 new : trace) (r : result unit) :
  os_getenv P (lit "HUMAN_REVIEWER") = None ->
  apply_line_comments W P raw commit t0 = (t0 ++ new, r) ->
  Forall (fun ev => is_assignment ev = true ->
                    ev_call ev = add_to_assignees None) new /\
  Forall (fun ev => is_issue_comment ev = true ->
                    ev_call ev
                    = create_issue_comment
                        (lit "AI Review complete. Reassigning to @None for final sign-off.") \/
                    ev_call ev
                    = create_issue_comment (lit "AI Review Error: " ++ raw))
    new.
Proof.
  intros Henv H. apply apply_cases in H as (b & _ & Ht).
  assert (Hnew : exists tail,
             new = body_events P raw commit b ++ tail /\
             (tail = [] \/ exists e po o, tail = fallback_events raw e po o)).
  { destruct (body_raised b) as [e|].
    - destruct Ht as (po & o & Ht & _). apply app_inv_head in Ht. eauto 8.
    - destruct Ht as [Ht _]. apply app_inv_head in Ht.
      exists []. by rewrite app_nil_r; auto. }
  destruct Hnew as (tail & -> & Htail).
  assert (Hr : HUMAN_REVIEWER P = None) by done.
  assert (Ht' : handoff_text P
                = lit "AI Review complete. Reassigning to @None for final sign-off.").
  { unfold handoff_text. by rewrite Hr. }
  split; apply Forall_app; split.
  - destruct b as [| | | | |args ao o]; simpl; events_all;
      [by rewrite Hr | destruct ao; events_all].
  - destruct Htail as [->|(e & po & o & ->)]; [done|].
    destruct po; events_all.
  - destruct b as [| | | | |args ao o]; simpl; events_all.
    rewrite Ht'. destruct ao; events_all. intros _. by left.
  - destruct Htail as [->|(e & po & o & ->)]; [done|].
    destruct po; events_all. intros _. by right.
Qed.

(** X18.  The branch without marker: when the marker does not occur in the
    raw response, the payload parses to a sequence of well-formed entries
    and every line-comment call returns, the run is the parse and the line
    comments, nothing else, and it returns normally. *)
Theorem no_marker_ends_after_the_line_comments (raw : str) (commit : Commit)
  (t0 new : trace) (r : result unit) (comments : pyobj) (items : list pyobj)
  (args : list (pyobj * pyobj * Z)) :
  ~ occurs READY_FOR_HUMAN_REVIEW raw ->
  W t0 (json_loads (payload raw)) = Ok comments ->
  iter comments = Ok items ->
  Forall2 (well_formed (int_max_str_digits P)) items args ->
  apply_line_comments W P raw commit t0 = (t0 ++ new, r) ->
  returned is_review_comment new ->
  new = done (json_loads (payload raw)) :: posted commit args /\ r = Ok tt.
Proof.
  intros Hm Hj Hi Hwf Hrun Hret.
  apply apply_cases in Hrun as (b & Hb & Ht).
  destruct b as [e|e|args' e|args' a e|args'|args' ao o]; simpl in Hb, Ht.
  - congruence.
  - destruct Hb as (? & ? & ?). congruence.
  - destruct Hb as (? & items' & c & ? & ? & _ & Hc & He).
    assert (items' = items) as -> by congruence.
    by eapply well_formed_not_raise in He.
  - destruct Ht as (po & o & Ht & _). new_events Ht. subst new.
    eapply (returned_elem _ _ (Event (entry_call commit a) (Some e))) in Hret;
      [done | in_trace | done].
  - destruct Hb as (? & items' & ? & ? & Hwf' & _).
    assert (items' = items) as -> by congruence.
    rewrite (Forall2_well_formed_inj _ _ _ _ Hwf' Hwf) in Ht.
    destruct Ht as [Ht ->]. by new_events Ht.
  - destruct Hb as (? & ? & _ & _ & _ & Hc). by apply contains_spec in Hc.
Qed.

End More.

(** X1 on the malformed response when issue comments are refused. *)
Lemma except_clause_is_the_only_way_out_witness :
  exists before e0,
    [Event (json_loads json_malformed) (Some JSONDecodeError);
     done (print_error JSONDecodeError);
     Event (create_issue_comment (lit "AI Review Error: " ++ raw_malformed))
       (Some (OtherError 403))]
    = before ++ [Event (print_error e0) (Some (OtherError 403))] \/
    [Event (json_loads json_malformed) (Some JSONDecodeError);
     done (print_error JSONDecodeError);
     Event (create_issue_comment (lit "AI Review Error: " ++ raw_malformed))
       (Some (OtherError 403))]
    = before ++ [done (print_error e0);
                 Event (create_issue_comment
                          (lit "AI Review Error: " ++ raw_malformed))
                   (Some (OtherError 403))].
Proof.
  apply (except_clause_is_the_only_way_out no_issue_world demo_process
           raw_malformed demo_commit []).
  vm_compute. reflexivity.
Defined.

(** X2 on one entry without the marker, in the calm world. *)
Lemma no_marker_no_handoff_witness :
  List.filter is_assignment
    [done (json_loads json_one); done (entry_call demo_commit demo_args)] = [] /\
  Forall (fun ev => is_issue_comment ev = true ->
                    ev_call ev
                    = create_issue_comment
                        (lit "AI Review Error: " ++ raw_unmarked))
    [done (json_loads json_one); done (entry_call demo_commit demo_args)].
Proof.
  apply (no_marker_no_handoff (demo_world raw_unmarked) demo_process
           raw_unmarked demo_commit [] _ (Ok tt)).
  - intros H%contains_spec. vm_compute in H. discriminate.
  - vm_compute. reflexivity.
Defined.

(** X4 on a response that is a number. *)
Lemma scalar_payload_is_not_iterated_witness :
  apply_line_comments (demo_world raw_number) demo_process raw_number
    demo_commit []
  = fallback (demo_world raw_number) raw_number TypeError
      ([] ++ [done (json_loads (payload raw_number))]).
Proof.
  apply (scalar_payload_is_not_iterated (demo_world raw_number) demo_process
           raw_number demo_commit [] (PInt 42)).
  - vm_compute. reflexivity.
  - reflexivity.
Defined.

(** X5 on an array whose second element is a number: the first entry is
    posted, the second raises. *)
Lemma entry_that_is_no_object_raises_TypeError_witness :
  apply_line_comments (demo_world raw_mixed) demo_process raw_mixed
    demo_commit []
  = fallback (demo_world raw_mixed) raw_mixed TypeError
      [done (json_loads (payload raw_mixed));
       done (entry_call demo_commit demo_args)].
Proof.
  apply (entry_that_is_no_object_raises_TypeError (demo_world raw_mixed)
           demo_process raw_mixed demo_commit [] _
           (PList [demo_entry (PInt 10); PInt 7]) [demo_entry (PInt 10)] []
           (PInt 7)).
  - vm_compute. reflexivity.
  - reflexivity.
  - vm_compute. reflexivity.
  - discriminate.
Defined.

(** X6 on a response that is one object without the brackets. *)
Lemma bare_object_or_string_raises_TypeError_witness :
  apply_line_comments (demo_world raw_object) demo_process raw_object
    demo_commit []
  = fallback (demo_world raw_object) raw_object TypeError
      ([] ++ [done (json_loads (payload raw_object))]).
Proof.
  apply (bare_object_or_string_raises_TypeError (demo_world raw_object)
           demo_process raw_object demo_commit [] (demo_entry (PInt 10))).
  - vm_compute. reflexivity.
  - left. by eexists _, _, _.
Defined.

(** X7 on an entry without "line". *)
Lemma missing_key_raises_KeyError_witness :
  apply_line_comments (demo_world raw_no_line) demo_process raw_no_line
    demo_commit []
  = fallback (demo_world raw_no_line) raw_no_line (KeyError (lit "line"))
      [done (json_loads (payload raw_no_line))].
Proof.
  apply (missing_key_raises_KeyError (demo_world raw_no_line) demo_process
           raw_no_line demo_commit [] _
           (PList [PDict [(lit "path", PStr (lit "lib/a.dart"));
                          (lit "comment", PStr (lit "fix this"))]])
           [] []
           [(lit "path", PStr (lit "lib/a.dart"));
            (lit "comment", PStr (lit "fix this"))]).
  - vm_compute. reflexivity.
  - reflexivity.
  - reflexivity.
  - reflexivity.
Defined.

(** X8 on two entries when the line comment on the second file is refused:
    one returned call, then the call that raised, and no other. *)
Lemma line_comments_follow_the_entries_witness :
  exists args tail,
    List.filter is_review_comment
      [done (json_loads json_two);
       done (entry_call demo_commit demo_args);
       Event (entry_call demo_commit
                (PStr (lit "rename"), PStr (lit "lib/b.dart"), 7%Z))
         (Some (OtherError 422));
       done (print_error (OtherError 422));
       done (create_issue_comment (lit "AI Review Error: " ++ raw_two))]
    = posted demo_commit args ++ tail /\
    Forall2 (well_formed 4300)
      (take (length args) [demo_entry (PInt 10); second_entry]) args /\
    (length args <= 2)%nat /\
    (tail = [] \/
     exists c a e,
       [demo_entry (PInt 10); second_entry] !! length args = Some c /\
       well_formed 4300 c a /\
       tail = [Event (entry_call demo_commit a) (Some e)]).
Proof.
  apply (line_comments_follow_the_entries picky_world demo_process raw_two
           demo_commit [] _ (Ok tt)
           (PList [demo_entry (PInt 10); second_entry])).
  - vm_compute. reflexivity.
  - reflexivity.
  - vm_compute. reflexivity.
Defined.

(** X10 in the world whose pull request has no commit. *)
Lemma empty_history_raises_IndexError_witness :
  get_line_specific_review no_commit_world demo_pr []
  = ([] ++ [done (read_file standards_path); done get_commits],
     Raise IndexError).
Proof.
  apply (empty_history_raises_IndexError no_commit_world demo_pr []
           (lit "Be kind.")); reflexivity.
Defined.

(** X11 for the process started without an argument. *)
Lemma no_call_iff_bad_argument_witness :
  main (demo_world raw_one) bare_process [] = ([], Raise IndexError).
Proof.
  apply (no_call_iff_bad_argument (demo_world raw_one) bare_process []
           (Raise IndexError)).
  exists IndexError. split; reflexivity.
Defined.

(** X12 on the whole script in the calm world. *)
Lemma script_runs_setup_generator_applier_witness :
  exists s g a,
    setup_trace ++ trace_review ++ trace_one = s ++ g ++ a /\
    Forall (fun ev => setup_call (ev_call ev) = true) s /\
    Forall (fun ev => generator_call (ev_call ev) = true) g /\
    Forall (fun ev => applier_call (ev_call ev) = true) a /\
    (g <> [] -> length s = 4%nat /\ Forall (fun ev => ev_raised ev = None) s) /\
    (a <> [] -> exists before model prompt,
                  g = before ++ [done (generate_content model prompt)]).
Proof.
  apply (script_runs_setup_generator_applier (demo_world raw_one)
           demo_process _ (Ok tt)).
  vm_compute. reflexivity.
Defined.

(** X13 on the whole script in the calm world: the line comment is on the
    second of the two commits. *)
Lemma line_comments_are_on_the_latest_commit_witness :
  exists before commits,
    before ++ [done get_commits]
      `prefix_of` setup_trace ++ trace_review ++ trace_one /\
    demo_world raw_one before get_commits = Ok commits /\
    last commits = Some demo_commit.
Proof.
  apply (line_comments_are_on_the_latest_commit (demo_world raw_one)
           demo_process _ (Ok tt) (PStr (lit "fix this"))
           (PStr (lit "lib/a.dart")) demo_commit 10 None).
  - vm_compute. reflexivity.
  - unfold setup_trace, trace_review, trace_one. in_trace.
Defined.

(** X15 on the sample response with one entry. *)
Lemma payload_of_instructed_response_witness :
  payload (json_one ++ ACTION ++ lit " READY_FOR_HUMAN_REVIEW")
  = strip json_one.
Proof.
  apply (payload_of_instructed_response json_one
           (lit " READY_FOR_HUMAN_REVIEW")).
  intros H%contains_spec. vm_compute in H. discriminate.
Defined.

(** X17 on the empty review for a process without HUMAN_REVIEWER. *)
Lemma unset_reviewer_is_assigned_None_witness :
  Forall (fun ev => is_assignment ev = true ->
                    ev_call ev = add_to_assignees None)
    [done (json_loads (lit "[]")); done (add_to_assignees None);
     done (create_issue_comment
             (lit "AI Review complete. Reassigning to @None for final sign-off."))] /\
  Forall (fun ev => is_issue_comment ev = true ->
                    ev_call ev
                    = create_issue_comment
                        (lit "AI Review complete. Reassigning to @None for final sign-off.") \/
                    ev_call ev
                    = create_issue_comment (lit "AI Review Error: " ++ raw_empty))
    [done (json_loads (lit "[]")); done (add_to_assignees None);
     done (create_issue_comment
             (lit "AI Review complete. Reassigning to @None for final sign-off."))].
Proof.
  apply (unset_reviewer_is_assigned_None (demo_world raw_empty)
           anonymous_process raw_empty demo_commit [] _ (Ok tt)).
  - reflexivity.
  - vm_compute. reflexivity.
Defined.

(** X18 on one entry without the marker, in the calm world. *)
Lemma no_marker_ends_after_the_line_comments_witness :
  [done (json_loads json_one); done (entry_call demo_commit demo_args)]
  = done (json_loads (payload raw_unmarked)) :: posted demo_commit [demo_args] /\
  Ok tt = Ok tt.
Proof.
  apply (no_marker_ends_after_the_line_comments (demo_world raw_unmarked)
           demo_process raw_unmarked demo_commit [] _ (Ok tt)
           (PList [demo_entry (PInt 10)]) [demo_entry (PInt 10)] [demo_args]).
  - intros H%contains_spec. vm_compute in H. discriminate.
  - vm_compute. reflexivity.
  - reflexivity.
  - repeat constructor. by apply well_formed_demo.
  - vm_compute. reflexivity.
  - unfold returned. repeat constructor.
Defined.

(** X16 on a response that is the marker line alone. *)
Lemma nothing_before_ACTION_gives_empty_payload_witness :
  payload (nl ++ ACTION ++ lit " READY_FOR_HUMAN_REVIEW") = [] /\
  exists o more,
    (apply_line_comments (demo_world raw_one) demo_process
       (nl ++ ACTION ++ lit " READY_FOR_HUMAN_REVIEW") demo_commit []).1
    = [] ++ Event (json_loads []) o :: more.
Proof.
  apply (nothing_before_ACTION_gives_empty_payload (demo_world raw_one)
           demo_process nl (lit " READY_FOR_HUMAN_REVIEW") demo_commit []).
  repeat constructor.
Defined.

End ReviewAgentMore.
